(** * Forte Business Analytics front end: a model of the React components

    The two components of [frontend/src/components] are embedded here:

    - [ChatInterface.jsx] (two revisions: the text-only one and the one with a
      spreadsheet attachment), whose [handleSendMessage] drives the transcript;
    - [RequirementsPanel.jsx], whose [generateRequirements], [generateArtifact],
      [downloadDocument] and [publishToConfluence] drive the document flow.

    A handler is an [async] function with a single [await fetch(...)].  It is
    split at that suspension point: the synchronous prefix returns either
    [Returned] (an early [return], no request) or [Awaiting] with the request
    it issued; the rest of the handler (the remainder of the [try] block, the
    [catch] and the [finally]) is a computation in a small state, trace and
    exception monad that receives how the request settled.  Whatever the
    environment decides (clock readings, the settlement of a request, the
    answer to [window.confirm], whether [window.open] accepts a URL) is an
    explicit argument. *)

From Stdlib Require Import ZArith NArith List String Bool Lia.
From Stdlib Require Import Sorting.Sorted.
From Stdlib Require Import Floats.SpecFloat.
Import ListNotations.

Set Warnings "-register-all".

(** ** JavaScript strings and values *)

Module Js.

(** A JavaScript string is a sequence of UTF-16 code units. *)
Definition JsString := list N.

(** Literals are written as Rocq strings (UTF-8 bytes) and decoded here. *)
Fixpoint utf16_of_utf8 (bs : list N) : JsString :=
  match bs with
  | [] => []
  | b0 :: rest =>
      if (b0 <? 128)%N then b0 :: utf16_of_utf8 rest
      else if (b0 <? 224)%N then
        match rest with
        | b1 :: rest1 =>
            N.lor (N.shiftl (N.land b0 31) 6) (N.land b1 63)
              :: utf16_of_utf8 rest1
        | [] => []
        end
      else if (b0 <? 240)%N then
        match rest with
        | b1 :: b2 :: rest2 =>
            N.lor (N.shiftl (N.land b0 15) 12)
              (N.lor (N.shiftl (N.land b1 63) 6) (N.land b2 63))
              :: utf16_of_utf8 rest2
        | _ => []
        end
      else
        match rest with
        | b1 :: b2 :: b3 :: rest3 =>
            let cp :=
              N.lor (N.shiftl (N.land b0 7) 18)
                (N.lor (N.shiftl (N.land b1 63) 12)
                   (N.lor (N.shiftl (N.land b2 63) 6) (N.land b3 63))) in
            let v := (cp - 65536)%N in
            (55296 + N.shiftr v 10)%N :: (56320 + N.land v 1023)%N
              :: utf16_of_utf8 rest3
        | _ => []
        end
  end.

Definition lit (s : string) : JsString :=
  utf16_of_utf8 (map Byte.to_N (list_byte_of_string s)).

(** [===] on strings. *)
Fixpoint str_eqb (a b : JsString) : bool :=
  match a, b with
  | [], [] => true
  | x :: a', y :: b' => (x =? y)%N && str_eqb a' b'
  | _, _ => false
  end.

(** ECMAScript [WhiteSpace] and [LineTerminator] code points, the ones
    [String.prototype.trim] strips; all of them are single code units. *)
Definition is_white_space (c : N) : bool :=
  ((9 <=? c) && (c <=? 13) || (c =? 32) || (c =? 160) || (c =? 5760)
   || (8192 <=? c) && (c <=? 8202) || (c =? 8232) || (c =? 8233)
   || (c =? 8239) || (c =? 8287) || (c =? 12288) || (c =? 65279))%N.

Fixpoint trimStart (s : JsString) : JsString :=
  match s with
  | [] => []
  | c :: s' => if is_white_space c then trimStart s' else s
  end.

Definition trimEnd (s : JsString) : JsString := rev (trimStart (rev s)).

Definition trim (s : JsString) : JsString := trimEnd (trimStart s).

(** The values a handler manipulates: what [JSON.parse] produces, plus
    [undefined] (the result of reading a property that is not there).  Numbers
    are IEEE 754 doubles.  An object is its list of own properties; a read takes
    the first binding of the key. *)
Inductive JsVal : Type :=
| JUndefined
| JNull
| JBool (b : bool)
| JNum (x : spec_float)
| JStr (s : JsString)
| JArr (items : list JsVal)
| JObj (fields : list (JsString * JsVal)).

(** [ToBoolean]: the test behind [!x], [x && y], [x || y] and [if (x)]. *)
Definition truthy (v : JsVal) : bool :=
  match v with
  | JUndefined | JNull => false
  | JBool b => b
  | JNum (S754_zero _) | JNum S754_nan => false
  | JNum _ => true
  | JStr [] => false
  | JStr (_ :: _) => true
  | JArr _ | JObj _ => true
  end.

(** [a || b]. *)
Definition or_else (a b : JsVal) : JsVal := if truthy a then a else b.

(** An [Error] object, as far as the handlers look at it. *)
Record JsError : Type := mkError { err_name : JsString; err_message : JsString }.

(** What depends on the JavaScript engine and the browser: the text of the
    [TypeError] raised when a property is read from [null] or [undefined],
    and what [window.open] does with its URL argument: [None] when the
    argument parses as a URL, the [SyntaxError] it throws when it does not. *)
Record Engine : Type :=
  { nullish_read_message : JsVal -> JsString -> JsString;
    open_failure : JsVal -> option JsError }.

Inductive Completion (A : Type) : Type :=
| Normal (a : A)
| Throw (e : JsError).
Arguments Normal {A} a.
Arguments Throw {A} e.

Fixpoint own_property (p : JsString) (fields : list (JsString * JsVal)) : JsVal :=
  match fields with
  | [] => JUndefined
  | (k, v) :: rest => if str_eqb k p then v else own_property p rest
  end.

(** [v.p] for the property names the handlers read from a parsed body
    ([success], [error], [requirements], [document], [artifacts], [diagram],
    [page_url], [response], [image]): none of them is defined on a prototype,
    so only an object's own properties can answer; [null.p] raises. *)
Definition get (eng : Engine) (v : JsVal) (p : JsString) : Completion JsVal :=
  match v with
  | JUndefined | JNull =>
      Throw (mkError (lit "TypeError") (nullish_read_message eng v p))
  | JObj fields => Normal (own_property p fields)
  | JBool _ | JNum _ | JStr _ | JArr _ => Normal JUndefined
  end.

(** ** What the browser gives back *)

(** A settled [fetch]: the promise rejects (no connection, CORS, ...), or it
    resolves with a response whose body [response.json()] parses or rejects. *)
Inductive JsonBody : Type :=
| Unparsable (e : JsError)
| Parsed (data : JsVal).

Inductive FetchOutcome : Type :=
| Rejected (e : JsError)
| Responded (status : Z) (body : JsonBody).

(** [response.ok]. *)
Definition ok (status : Z) : bool := (200 <=? status)%Z && (status <=? 299)%Z.

(** A [File] picked in the file input. *)
Record File : Type := mkFile { file_name : JsString; file_bytes : list N }.

Inductive RequestBody : Type :=
| JsonText (value : JsVal)                       (* JSON.stringify(value) *)
| FormData (message : JsVal) (file : option File).

Record Request : Type := mkRequest
  { url : JsString;
    method : JsString;
    headers : list (JsString * JsString);
    body : RequestBody }.

(** A template literal: its text chunks and the values it interpolates. *)
Inductive TemplatePart : Type :=
| Chunk (s : JsString)
| Interpolated (v : JsVal).

Record Blob : Type := mkBlob { blob_parts : list JsVal; blob_type : JsString }.

Inductive LogArg : Type :=
| LogValue (v : JsVal)
| LogError (e : JsError).

(** What a handler does to the page besides updating component state. *)
Inductive Effect : Type :=
| ConsoleLog (args : list LogArg)
| ConsoleError (args : list LogArg)
| WindowConfirm (message : list TemplatePart)
| WindowOpen (target_url : JsVal) (target : JsString)
| AnchorDownload (content : Blob) (download : JsString).

(** ** The monad of a handler's continuation

    Component state [S], the trace of effects so far, and a completion. *)
Section Exec.
Variable S : Type.

Definition Exec (A : Type) : Type :=
  S -> list Effect -> Completion A * S * list Effect.

Definition ret {A} (a : A) : Exec A := fun s t => (Normal a, s, t).

Definition throw {A} (e : JsError) : Exec A := fun s t => (Throw e, s, t).

Definition bind {A B} (m : Exec A) (k : A -> Exec B) : Exec B :=
  fun s t =>
    match m s t with
    | (Normal a, s', t') => k a s' t'
    | (Throw e, s', t') => (Throw e, s', t')
    end.

Definition lift {A} (c : Completion A) : Exec A := fun s t => (c, s, t).

(** A state setter of [useState], applied to the current state. *)
Definition update (f : S -> S) : Exec unit := fun s t => (Normal tt, f s, t).

Definition emit (e : Effect) : Exec unit := fun s t => (Normal tt, s, t ++ [e]).

(** [try { body } catch (e) { handler(e) } finally { fin }]. *)
Definition try_catch_finally
    (body : Exec unit) (handler : JsError -> Exec unit) (fin : Exec unit)
  : Exec unit :=
  fun s t =>
    let '(r1, s1, t1) := body s t in
    let '(r2, s2, t2) :=
      match r1 with
      | Normal _ => (Normal tt, s1, t1)
      | Throw e => handler e s1 t1
      end in
    let '(r3, s3, t3) := fin s2 t2 in
    match r3 with
    | Normal _ => (r2, s3, t3)
    | Throw e => (Throw e, s3, t3)
    end.

(** Where the synchronous prefix of a handler stops. *)
Inductive Step : Type :=
| Returned (s : S) (t : list Effect)
| Awaiting (s : S) (t : list Effect) (req : Request).
End Exec.

Arguments ret {S A} a.
Arguments bind {S A B} m k.
Arguments update {S} f.
Arguments try_catch_finally {S} body handler fin.
Arguments throw {S A} e.
Arguments lift {S A} c.
Arguments emit {S} e.
Arguments Returned {S} s t.
Arguments Awaiting {S} s t req.

(** [await fetch(...)]: a rejection is thrown at the [await]. *)
Definition await_fetch {S} (o : FetchOutcome) : Exec S (Z * JsonBody) :=
  match o with
  | Rejected e => throw e
  | Responded status b => ret (status, b)
  end.

(** [await response.json()]. *)
Definition await_json {S} (b : JsonBody) : Exec S JsVal :=
  match b with
  | Unparsable e => throw e
  | Parsed data => ret data
  end.

(** [window.open(target_url, target)]: it throws, and opens nothing, when
    the URL does not parse. *)
Definition window_open {S} (eng : Engine) (target_url : JsVal)
    (target : JsString) : Exec S unit :=
  match open_failure eng target_url with
  | Some e => throw e
  | None => emit (WindowOpen target_url target)
  end.

End Js.

Import Js.

Declare Scope exec_scope.
Delimit Scope exec_scope with exec.
Notation "x <- m ;; k" := (bind m (fun x => k))
  (at level 61, m at next level, right associativity) : exec_scope.
Notation "m ;; k" := (bind m (fun _ => k))
  (at level 61, right associativity) : exec_scope.
Open Scope exec_scope.

(** ** [ChatInterface.jsx]: what both revisions share *)

Module Chat.

Inductive MessageType : Type := agent | user.

(** A transcript entry.  A field an object literal leaves out reads as
    [undefined].  Ids are integers: [Date.now()] and [Date.now() + 1] are
    exact in doubles. *)
Record Message : Type := mkMessage
  { id : Z;
    type : MessageType;
    content : JsVal;
    fileName : JsVal;
    image : JsVal }.

Definition welcome : Message :=
  {| id := 1;
     type := agent;
     content := JStr (lit "Hello! I am your Business Analytics Agent. How can I assist you with analyzing your business processes today?");
     fileName := JUndefined;
     image := JUndefined |}.

Definition fallback_text : JsString :=
  lit "I apologize, but I'm having trouble connecting to the analytics engine. Please ensure the backend server is running.".

Definition chat_url : JsString := lit "http://localhost:8000/chat".

Definition not_ok_error : JsError :=
  mkError (lit "Error") (lit "Network response was not ok").

End Chat.

Import Chat.

(** ** [ChatInterface.jsx], first revision: text only *)

Module ChatInterfaceV1.

Record State : Type := mkState
  { messages : list Message;
    inputValue : JsString;
    isLoading : bool }.

(** [useState] initial values. *)
Definition initial : State :=
  {| messages := [welcome]; inputValue := []; isLoading := false |}.

Definition setMessages (f : list Message -> list Message) (s : State) : State :=
  {| messages := f (messages s); inputValue := inputValue s; isLoading := isLoading s |}.

Definition setInputValue (v : JsString) (s : State) : State :=
  {| messages := messages s; inputValue := v; isLoading := isLoading s |}.

Definition setIsLoading (b : bool) (s : State) : State :=
  {| messages := messages s; inputValue := inputValue s; isLoading := b |}.

Definition userMessage (now : Z) (s : State) : Message :=
  {| id := now;
     type := user;
     content := JStr (inputValue s);
     fileName := JUndefined;
     image := JUndefined |}.

Definition agentMessage (now : Z) (response img : JsVal) : Message :=
  {| id := now + 1;
     type := agent;
     content := response;
     fileName := JUndefined;
     image := img |}.

Definition errorMessage (now : Z) : Message :=
  {| id := now + 1;
     type := agent;
     content := JStr fallback_text;
     fileName := JUndefined;
     image := JUndefined |}.

Definition chat_request (m : Message) : Request :=
  {| url := chat_url;
     method := lit "POST";
     headers := [(lit "Content-Type", lit "application/json")];
     body := JsonText (JObj [(lit "message", content m)]) |}.

(** [handleSendMessage] up to [await fetch(...)]; [now] is what [Date.now()]
    reads. *)
Definition handleSendMessage_begin (now : Z) (s : State) (t : list Effect)
  : Step State :=
  if negb (truthy (JStr (trim (inputValue s)))) then Returned s t
  else
    let m := userMessage now s in
    let s1 := setMessages (fun prev => prev ++ [m]) s in
    let s2 := setInputValue [] s1 in
    let s3 := setIsLoading true s2 in
    Awaiting s3 t (chat_request m).

(** [handleSendMessage] from the [await] on.  [now] is the reading of
    [Date.now()] that ends up in the appended message (when [data] is [null]
    the [try] block reads the clock once more and drops that reading with the
    exception). *)
Definition handleSendMessage_settle (eng : Engine) (now : Z) (o : FetchOutcome)
  : Exec State unit :=
  try_catch_finally
    (response <- await_fetch o ;;
     if negb (ok (fst response)) then throw not_ok_error
     else
       data <- await_json (snd response) ;;
       text <- lift (get eng data (lit "response")) ;;
       img <- lift (get eng data (lit "image")) ;;
       update (setMessages (fun prev => prev ++ [agentMessage now text img])))
    (fun error =>
       emit (ConsoleError [LogValue (JStr (lit "Error:")); LogError error]) ;;
       update (setMessages (fun prev => prev ++ [errorMessage now])))
    (update (setIsLoading false)).

(** The whole handler when nothing else happens while the request is pending. *)
Definition handleSendMessage (eng : Engine) (now_submit now_settle : Z)
    (o : FetchOutcome) (s : State) (t : list Effect)
  : Completion unit * State * list Effect :=
  match handleSendMessage_begin now_submit s t with
  | Returned s' t' => (Normal tt, s', t')
  | Awaiting s' t' _ => handleSendMessage_settle eng now_settle o s' t'
  end.

(** One round of use: the text is typed ([onChange]), the form is submitted,
    the request settles. *)
Record Submission : Type := mkSubmission
  { typed : JsString;
    submitted_at : Z;
    settled_at : Z;
    settlement : FetchOutcome }.

Definition submit (eng : Engine) (w : State * list Effect) (x : Submission)
  : State * list Effect :=
  let '(_, s', t') :=
    handleSendMessage eng (submitted_at x) (settled_at x) (settlement x)
      (setInputValue (typed x) (fst w)) (snd w) in
  (s', t').

Definition session (eng : Engine) (xs : list Submission) : State * list Effect :=
  fold_left (submit eng) xs (initial, []).

(** The precondition of a submission, and an all-success answer. *)
Definition submittable (x : Submission) : bool :=
  truthy (JStr (trim (typed x))).

End ChatInterfaceV1.

(** ** [ChatInterface.jsx], second revision: text and one attached file *)

Module ChatInterfaceV2.

(** [fileInputRef] is [None] while the ref is [null], otherwise the [value] of
    the hidden file input. *)
Record State : Type := mkState
  { messages : list Message;
    inputValue : JsString;
    selectedFile : option File;
    isLoading : bool;
    fileInputRef : option JsString }.

Definition initial (file_input : option JsString) : State :=
  {| messages := [welcome];
     inputValue := [];
     selectedFile := None;
     isLoading := false;
     fileInputRef := file_input |}.

Definition setMessages (f : list Message -> list Message) (s : State) : State :=
  {| messages := f (messages s); inputValue := inputValue s;
     selectedFile := selectedFile s; isLoading := isLoading s;
     fileInputRef := fileInputRef s |}.

Definition setInputValue (v : JsString) (s : State) : State :=
  {| messages := messages s; inputValue := v;
     selectedFile := selectedFile s; isLoading := isLoading s;
     fileInputRef := fileInputRef s |}.

Definition setSelectedFile (f : option File) (s : State) : State :=
  {| messages := messages s; inputValue := inputValue s;
     selectedFile := f; isLoading := isLoading s;
     fileInputRef := fileInputRef s |}.

Definition setIsLoading (b : bool) (s : State) : State :=
  {| messages := messages s; inputValue := inputValue s;
     selectedFile := selectedFile s; isLoading := b;
     fileInputRef := fileInputRef s |}.

(** [if (fileInputRef.current) fileInputRef.current.value = '']. *)
Definition resetFileInput (s : State) : State :=
  {| messages := messages s; inputValue := inputValue s;
     selectedFile := selectedFile s; isLoading := isLoading s;
     fileInputRef := match fileInputRef s with
                     | Some _ => Some []
                     | None => None
                     end |}.

(** [e.target.files] is [None] when the property is [null]. *)
Definition handleFileChange (files : option (list File)) (s : State) : State :=
  match files with
  | Some (f :: _) => setSelectedFile (Some f) s
  | Some [] | None => s
  end.

Definition attached (s : State) : bool :=
  match selectedFile s with Some _ => true | None => false end.

Definition userMessage (now : Z) (s : State) : Message :=
  {| id := now;
     type := user;
     content := JStr (inputValue s);
     fileName := match selectedFile s with
                 | Some f => JStr (file_name f)
                 | None => JNull
                 end;
     image := JUndefined |}.

Definition agentMessage (now : Z) (response img : JsVal) : Message :=
  {| id := now + 1;
     type := agent;
     content := response;
     fileName := JUndefined;
     image := img |}.

Definition errorMessage (now : Z) : Message :=
  {| id := now + 1;
     type := agent;
     content := JStr fallback_text;
     fileName := JUndefined;
     image := JUndefined |}.

Definition chat_request (m : Message) (f : option File) : Request :=
  {| url := chat_url;
     method := lit "POST";
     headers := [];
     body := FormData (content m) f |}.

Definition handleSendMessage_begin (now : Z) (s : State) (t : list Effect)
  : Step State :=
  if negb (truthy (JStr (trim (inputValue s)))) && negb (attached s)
  then Returned s t
  else
    let m := userMessage now s in
    let s1 := setMessages (fun prev => prev ++ [m]) s in
    let s2 := setInputValue [] s1 in
    let s3 := setSelectedFile None s2 in
    let s4 := setIsLoading true s3 in
    Awaiting s4 t (chat_request m (selectedFile s)).

Definition handleSendMessage_settle (eng : Engine) (now : Z) (o : FetchOutcome)
  : Exec State unit :=
  try_catch_finally
    (response <- await_fetch o ;;
     if negb (ok (fst response)) then throw not_ok_error
     else
       data <- await_json (snd response) ;;
       text <- lift (get eng data (lit "response")) ;;
       img <- lift (get eng data (lit "image")) ;;
       update (setMessages (fun prev => prev ++ [agentMessage now text img])))
    (fun error =>
       emit (ConsoleError [LogValue (JStr (lit "Error:")); LogError error]) ;;
       update (setMessages (fun prev => prev ++ [errorMessage now])))
    (update (setIsLoading false) ;; update resetFileInput).

Definition handleSendMessage (eng : Engine) (now_submit now_settle : Z)
    (o : FetchOutcome) (s : State) (t : list Effect)
  : Completion unit * State * list Effect :=
  match handleSendMessage_begin now_submit s t with
  | Returned s' t' => (Normal tt, s', t')
  | Awaiting s' t' _ => handleSendMessage_settle eng now_settle o s' t'
  end.

(** One round of use: the text is typed, a file is picked or not, the form is
    submitted, the request settles. *)
Record Submission : Type := mkSubmission
  { typed : JsString;
    picked : option File;
    submitted_at : Z;
    settled_at : Z;
    settlement : FetchOutcome }.

Definition pick (f : option File) (s : State) : State :=
  match f with
  | Some x => handleFileChange (Some [x]) s
  | None => s
  end.

Definition submit (eng : Engine) (w : State * list Effect) (x : Submission)
  : State * list Effect :=
  let '(_, s', t') :=
    handleSendMessage eng (submitted_at x) (settled_at x) (settlement x)
      (pick (picked x) (setInputValue (typed x) (fst w))) (snd w) in
  (s', t').

Definition session (eng : Engine) (file_input : option JsString)
    (xs : list Submission) : State * list Effect :=
  fold_left (submit eng) xs (initial file_input, []).

Definition submittable (x : Submission) : bool :=
  truthy (JStr (trim (typed x))) ||
  match picked x with Some _ => true | None => false end.

End ChatInterfaceV2.

(** ** [RequirementsPanel.jsx] *)

Module RequirementsPanel.

Record Artifacts : Type := mkArtifacts
  { useCases : JsVal;
    userStories : JsVal;
    processDiagram : JsVal }.

Record State : Type := mkState
  { projectName : JsString;
    isGenerating : bool;
    requirements : JsVal;
    documentContent : JsVal;
    error : JsVal;
    activeTab : JsString;
    artifacts : Artifacts }.

(** [useState] initial values. *)
Definition initial : State :=
  {| projectName := [];
     isGenerating := false;
     requirements := JNull;
     documentContent := JNull;
     error := JNull;
     activeTab := lit "requirements";
     artifacts := {| useCases := JNull; userStories := JNull; processDiagram := JNull |} |}.

Definition setProjectName (v : JsString) (s : State) : State :=
  {| projectName := v; isGenerating := isGenerating s;
     requirements := requirements s; documentContent := documentContent s;
     error := error s; activeTab := activeTab s; artifacts := artifacts s |}.

Definition setIsGenerating (b : bool) (s : State) : State :=
  {| projectName := projectName s; isGenerating := b;
     requirements := requirements s; documentContent := documentContent s;
     error := error s; activeTab := activeTab s; artifacts := artifacts s |}.

Definition setRequirements (v : JsVal) (s : State) : State :=
  {| projectName := projectName s; isGenerating := isGenerating s;
     requirements := v; documentContent := documentContent s;
     error := error s; activeTab := activeTab s; artifacts := artifacts s |}.

Definition setDocumentContent (v : JsVal) (s : State) : State :=
  {| projectName := projectName s; isGenerating := isGenerating s;
     requirements := requirements s; documentContent := v;
     error := error s; activeTab := activeTab s; artifacts := artifacts s |}.

Definition setError (v : JsVal) (s : State) : State :=
  {| projectName := projectName s; isGenerating := isGenerating s;
     requirements := requirements s; documentContent := documentContent s;
     error := v; activeTab := activeTab s; artifacts := artifacts s |}.

Definition setActiveTab (v : JsString) (s : State) : State :=
  {| projectName := projectName s; isGenerating := isGenerating s;
     requirements := requirements s; documentContent := documentContent s;
     error := error s; activeTab := v; artifacts := artifacts s |}.

Definition setArtifacts (f : Artifacts -> Artifacts) (s : State) : State :=
  {| projectName := projectName s; isGenerating := isGenerating s;
     requirements := requirements s; documentContent := documentContent s;
     error := error s; activeTab := activeTab s; artifacts := f (artifacts s) |}.

(** The notices. *)
Definition enter_project_name : JsString :=
  lit "Пожалуйста, введите название проекта".
Definition requirements_failed : JsString := lit "Ошибка генерации требований".
Definition server_unreachable : JsString := lit "Ошибка подключения к серверу".
Definition requirements_first : JsString := lit "Сначала сгенерируйте требования".
Definition artifact_failed : JsString := lit "Ошибка генерации артефакта".
Definition document_first : JsString := lit "Сначала сгенерируйте документ".
Definition publish_failed : JsString := lit "Ошибка публикации в Confluence".

Definition json_headers : list (JsString * JsString) :=
  [(lit "Content-Type", lit "application/json")].

(** *** [generateRequirements] *)

Definition requirements_request (sessionId : JsVal) (s : State) : Request :=
  {| url := lit "http://localhost:8000/generate-requirements";
     method := lit "POST";
     headers := json_headers;
     body := JsonText (JObj [(lit "session_id", sessionId);
                             (lit "project_name", JStr (projectName s));
                             (lit "additional_context", JNull)]) |}.

Definition generateRequirements_begin (sessionId : JsVal) (s : State)
    (t : list Effect) : Step State :=
  if negb (truthy (JStr (trim (projectName s)))) then
    Returned (setError (JStr enter_project_name) s) t
  else
    let s1 := setIsGenerating true s in
    let s2 := setError JNull s1 in
    Awaiting s2 t (requirements_request sessionId s).

Definition generateRequirements_settle (eng : Engine) (o : FetchOutcome)
  : Exec State unit :=
  try_catch_finally
    (response <- await_fetch o ;;
     data <- await_json (snd response) ;;
     success <- lift (get eng data (lit "success")) ;;
     if truthy success then
       r <- lift (get eng data (lit "requirements")) ;;
       update (setRequirements r) ;;
       d <- lift (get eng data (lit "document")) ;;
       update (setDocumentContent d)
     else
       e <- lift (get eng data (lit "error")) ;;
       update (setError (or_else e (JStr requirements_failed))))
    (fun err =>
       update (setError (JStr server_unreachable)) ;;
       emit (ConsoleError [LogError err]))
    (update (setIsGenerating false)).

(** *** [generateArtifact] *)

Definition artifact_request (artifactType : JsString) (s : State) : Request :=
  {| url := lit "http://localhost:8000/generate-artifacts";
     method := lit "POST";
     headers := json_headers;
     body := JsonText (JObj [(lit "requirements", requirements s);
                             (lit "artifact_type", JStr artifactType)]) |}.

Definition generateArtifact_begin (artifactType : JsString) (s : State)
    (t : list Effect) : Step State :=
  if negb (truthy (requirements s)) then
    Returned (setError (JStr requirements_first) s) t
  else
    let s1 := setIsGenerating true s in
    let s2 := setError JNull s1 in
    Awaiting s2 t (artifact_request artifactType s).

Definition with_useCases (v : JsVal) (prev : Artifacts) : Artifacts :=
  {| useCases := v; userStories := userStories prev;
     processDiagram := processDiagram prev |}.

Definition with_userStories (v : JsVal) (prev : Artifacts) : Artifacts :=
  {| useCases := useCases prev; userStories := v;
     processDiagram := processDiagram prev |}.

Definition with_processDiagram (v : JsVal) (prev : Artifacts) : Artifacts :=
  {| useCases := useCases prev; userStories := userStories prev;
     processDiagram := v |}.

Definition generateArtifact_settle (eng : Engine) (artifactType : JsString)
    (o : FetchOutcome) : Exec State unit :=
  try_catch_finally
    (response <- await_fetch o ;;
     data <- await_json (snd response) ;;
     success <- lift (get eng data (lit "success")) ;;
     if truthy success then
       if str_eqb artifactType (lit "use_cases") then
         a <- lift (get eng data (lit "artifacts")) ;;
         update (setArtifacts (with_useCases a))
       else if str_eqb artifactType (lit "user_stories") then
         a <- lift (get eng data (lit "artifacts")) ;;
         update (setArtifacts (with_userStories a))
       else if str_eqb artifactType (lit "process_diagram") then
         d <- lift (get eng data (lit "diagram")) ;;
         update (setArtifacts (with_processDiagram d))
       else ret tt
     else
       e <- lift (get eng data (lit "error")) ;;
       update (setError (or_else e (JStr artifact_failed))))
    (fun err =>
       update (setError (JStr server_unreachable)) ;;
       emit (ConsoleError [LogError err]))
    (update (setIsGenerating false)).

(** *** [downloadDocument]

    Synchronous.  The blob, its object URL, the temporary anchor and the click
    on it are one [AnchorDownload] effect: the blob and the anchor's
    [download] attribute. *)

Definition str_or (a b : JsString) : JsString :=
  if truthy (JStr a) then a else b.

Definition download_name (s : State) : JsString :=
  str_or (projectName s) (lit "requirements") ++ lit ".md".

Definition downloadDocument (s : State) (t : list Effect) : Step State :=
  if negb (truthy (documentContent s)) then Returned s t
  else
    let blob := {| blob_parts := [documentContent s];
                   blob_type := lit "text/markdown" |} in
    Returned s (t ++ [AnchorDownload blob (download_name s)]).

(** *** [publishToConfluence] *)

Definition num_of_N (n : N) : spec_float :=
  match n with
  | N0 => S754_zero false
  | Npos p => S754_finite false p 0
  end.

(** [v.length] for a truthy [v]. *)
Definition length_of (v : JsVal) : JsVal :=
  match v with
  | JStr s => JNum (num_of_N (N.of_nat (List.length s)))
  | JArr items => JNum (num_of_N (N.of_nat (List.length items)))
  | JObj fields => own_property (lit "length") fields
  | _ => JUndefined
  end.

Definition publish_request (s : State) : Request :=
  {| url := lit "http://localhost:8000/publish-to-confluence";
     method := lit "POST";
     headers := json_headers;
     body := JsonText (JObj [(lit "project_name", JStr (projectName s));
                             (lit "document", documentContent s)]) |}.

Definition publishToConfluence_begin (s : State) (t : list Effect) : Step State :=
  if negb (truthy (documentContent s)) then
    Returned (setError (JStr document_first) s) t
  else
    let s1 := setIsGenerating true s in
    let s2 := setError JNull s1 in
    let t1 := t ++ [ConsoleLog
                      [LogValue (JStr (lit "📤 Publishing to Confluence..."));
                       LogValue (JObj [(lit "project_name", JStr (projectName s));
                                       (lit "document_length",
                                        length_of (documentContent s))])]] in
    Awaiting s2 t1 (publish_request s).

Definition published_message (page_url : JsVal) : list TemplatePart :=
  [Chunk (lit "Документ успешно опубликован в Confluence!" ++ [10; 10]%N
            ++ lit "Ссылка: ");
   Interpolated page_url;
   Chunk ([10; 10]%N ++ lit "Открыть страницу?")].

(** [confirmed] is what [window.confirm] answers, should it be asked. *)
Definition publishToConfluence_settle (eng : Engine) (confirmed : bool)
    (o : FetchOutcome) : Exec State unit :=
  try_catch_finally
    (response <- await_fetch o ;;
     data <- await_json (snd response) ;;
     emit (ConsoleLog [LogValue (JStr (lit "📥 Confluence response:"));
                       LogValue data]) ;;
     success <- lift (get eng data (lit "success")) ;;
     if truthy success then
       page_url <- lift (get eng data (lit "page_url")) ;;
       emit (WindowConfirm (published_message page_url)) ;;
       if confirmed then window_open eng page_url (lit "_blank") else ret tt
     else
       e <- lift (get eng data (lit "error")) ;;
       emit (ConsoleError [LogValue (JStr (lit "❌ Confluence error:"));
                           LogValue e]) ;;
       update (setError (or_else e (JStr publish_failed))))
    (fun err =>
       emit (ConsoleError [LogValue (JStr (lit "❌ Exception:")); LogError err]) ;;
       update (setError
                 (JStr (server_unreachable ++ lit ": " ++ err_message err))))
    (update (setIsGenerating false)).

(** A handler run to completion with nothing else happening while its
    request is pending. *)
Definition run (begin : State -> list Effect -> Step State)
    (settle : Exec State unit) (s : State) (t : list Effect)
  : Completion unit * State * list Effect :=
  match begin s t with
  | Returned s' t' => (Normal tt, s', t')
  | Awaiting s' t' _ => settle s' t'
  end.

Definition generateRequirements (eng : Engine) (sessionId : JsVal)
    (o : FetchOutcome) :=
  run (generateRequirements_begin sessionId) (generateRequirements_settle eng o).

Definition generateArtifact (eng : Engine) (artifactType : JsString)
    (o : FetchOutcome) :=
  run (generateArtifact_begin artifactType)
      (generateArtifact_settle eng artifactType o).

Definition publishToConfluence (eng : Engine) (confirmed : bool)
    (o : FetchOutcome) :=
  run publishToConfluence_begin (publishToConfluence_settle eng confirmed o).

End RequirementsPanel.

(** ** Vocabulary of the statements *)

Arguments lit : simpl never.

(** [data.p] when [data] is not [null]. *)
Definition field (p : string) (data : JsVal) : JsVal :=
  match data with
  | JObj fields => own_property (lit p) fields
  | _ => JUndefined
  end.

(** The chat request failed: the promise rejected or the status is not 2xx. *)
Definition failed (o : FetchOutcome) : bool :=
  match o with
  | Rejected _ => true
  | Responded status _ => negb (ok status)
  end.

(** The chat request succeeded: a 2xx status and a body that parses to
    something other than [null]. *)
Definition answered (o : FetchOutcome) : bool :=
  match o with
  | Responded status (Parsed data) =>
      ok status && match data with JNull | JUndefined => false | _ => true end
  | _ => false
  end.

Definition is_user (m : Message) : bool :=
  match type m with user => true | agent => false end.

Definition is_agent (m : Message) : bool :=
  match type m with agent => true | user => false end.

(** User, agent, user, agent, ... *)
Fixpoint alternates (ms : list Message) : bool :=
  match ms with
  | [] => true
  | u :: rest =>
      match rest with
      | a :: rest' => is_user u && is_agent a && alternates rest'
      | [] => false
      end
  end.

(** The agent message a successful answer turns into. *)
Definition reply (settled : Z) (o : FetchOutcome) : Message :=
  match o with
  | Responded _ (Parsed data) =>
      {| id := settled + 1; type := agent; content := field "response" data;
         fileName := JUndefined; image := field "image" data |}
  | _ =>
      {| id := settled + 1; type := agent; content := JStr fallback_text;
         fileName := JUndefined; image := JUndefined |}
  end.

(** The two messages of one submission, first revision. *)
Definition exchange_v1 (x : ChatInterfaceV1.Submission) : list Message :=
  [ {| id := ChatInterfaceV1.submitted_at x; type := user;
       content := JStr (ChatInterfaceV1.typed x);
       fileName := JUndefined; image := JUndefined |};
    reply (ChatInterfaceV1.settled_at x) (ChatInterfaceV1.settlement x) ].

(** The two messages of one submission, second revision. *)
Definition exchange_v2 (x : ChatInterfaceV2.Submission) : list Message :=
  [ {| id := ChatInterfaceV2.submitted_at x; type := user;
       content := JStr (ChatInterfaceV2.typed x);
       fileName := match ChatInterfaceV2.picked x with
                   | Some f => JStr (file_name f)
                   | None => JNull
                   end;
       image := JUndefined |};
    reply (ChatInterfaceV2.settled_at x) (ChatInterfaceV2.settlement x) ].

(** Clock readings that keep ids apart: every submission reads the clock
    above the last id handed out, and its request settles no earlier than it
    was submitted. *)
Fixpoint ticking_v1 (last : Z) (xs : list ChatInterfaceV1.Submission) : bool :=
  match xs with
  | [] => true
  | x :: rest =>
      (last <? ChatInterfaceV1.submitted_at x)%Z
      && (ChatInterfaceV1.submitted_at x <=? ChatInterfaceV1.settled_at x)%Z
      && ticking_v1 (ChatInterfaceV1.settled_at x + 1) rest
  end.

Fixpoint ticking_v2 (last : Z) (xs : list ChatInterfaceV2.Submission) : bool :=
  match xs with
  | [] => true
  | x :: rest =>
      (last <? ChatInterfaceV2.submitted_at x)%Z
      && (ChatInterfaceV2.submitted_at x <=? ChatInterfaceV2.settled_at x)%Z
      && ticking_v2 (ChatInterfaceV2.settled_at x + 1) rest
  end.

(** Every id is greater than all the ids before it. *)
Definition ids_increase (ms : list Message) : Prop :=
  StronglySorted Z.lt (map id ms).

(** The panel's request came back with a truthy [success]. *)
Definition reports_success (o : FetchOutcome) : bool :=
  match o with
  | Responded _ (Parsed (JObj fields)) => truthy (own_property (lit "success") fields)
  | _ => false
  end.

(** What a failing panel request leaves in [error], given the fallback of the
    operation: the body's [error] when truthy, the fallback when the body has
    none, the connectivity notice when there is no usable body. *)
Definition surfaced (fallback : JsString) (o : FetchOutcome) : JsVal :=
  match o with
  | Rejected _ | Responded _ (Unparsable _)
  | Responded _ (Parsed JNull) | Responded _ (Parsed JUndefined) =>
      JStr RequirementsPanel.server_unreachable
  | Responded _ (Parsed data) =>
      if truthy (field "error" data) then field "error" data else JStr fallback
  end.

Inductive ArtifactKind : Type := use_cases | user_stories | process_diagram.

Definition kind_name (k : ArtifactKind) : JsString :=
  match k with
  | use_cases => lit "use_cases"
  | user_stories => lit "user_stories"
  | process_diagram => lit "process_diagram"
  end.

Definition slot (k : ArtifactKind) (a : RequirementsPanel.Artifacts) : JsVal :=
  match k with
  | use_cases => RequirementsPanel.useCases a
  | user_stories => RequirementsPanel.userStories a
  | process_diagram => RequirementsPanel.processDiagram a
  end.

(** The part of the body that goes into the slot. *)
Definition payload (k : ArtifactKind) (o : FetchOutcome) : JsVal :=
  match o with
  | Responded _ (Parsed data) =>
      match k with
      | use_cases | user_stories => field "artifacts" data
      | process_diagram => field "diagram" data
      end
  | _ => JUndefined
  end.

Definition kind_eqb (a b : ArtifactKind) : bool :=
  match a, b with
  | use_cases, use_cases | user_stories, user_stories
  | process_diagram, process_diagram => true
  | _, _ => false
  end.

(** Empty or made of white space only. *)
Definition blank (s : JsString) : bool := forallb is_white_space s.

(** Everything but [error] is the same. *)
Definition same_but_error (s s' : RequirementsPanel.State) : Prop :=
  RequirementsPanel.projectName s' = RequirementsPanel.projectName s
  /\ RequirementsPanel.isGenerating s' = RequirementsPanel.isGenerating s
  /\ RequirementsPanel.requirements s' = RequirementsPanel.requirements s
  /\ RequirementsPanel.documentContent s' = RequirementsPanel.documentContent s
  /\ RequirementsPanel.activeTab s' = RequirementsPanel.activeTab s
  /\ RequirementsPanel.artifacts s' = RequirementsPanel.artifacts s.

(** The state a completed run leaves. *)
Definition after {S : Type} (r : Completion unit * S * list Effect) : S :=
  snd (fst r).

Definition completion {S : Type} (r : Completion unit * S * list Effect)
  : Completion unit := fst (fst r).

Definition effects {S : Type} (r : Completion unit * S * list Effect)
  : list Effect := snd r.

(** ** Sample inputs *)

(** Engine texts used in the worked examples (V8's wording), and a browser
    that rejects the two URLs made of a scheme with nothing after it. *)
Definition v8 : Engine :=
  {| nullish_read_message := fun v p =>
       lit "Cannot read properties of "
       ++ match v with JUndefined => lit "undefined" | _ => lit "null" end
       ++ lit " (reading '" ++ p ++ lit "')";
     open_failure := fun u =>
       match u with
       | JStr s =>
           if str_eqb s (lit "https://") || str_eqb s (lit "http://") then
             Some (mkError (lit "SyntaxError")
                     (lit "Failed to execute 'open' on 'Window': Unable to open a window with invalid URL '"
                      ++ s ++ lit "'."))
           else None
       | _ => None
       end |}.

Definition q1_revenue : FetchOutcome :=
  Responded 200
    (Parsed (JObj [(lit "response", JStr (lit "Revenue grew 4%"));
                   (lit "image", JStr (lit "iVBORw0KGgo="))])).

Definition sheet : File := mkFile (lit "q1.xlsx") [80; 75; 3; 4]%N.

Definition failed_to_fetch : JsError :=
  mkError (lit "TypeError") (lit "Failed to fetch").

(** Sample states of the panel. *)
Definition loan_idle : RequirementsPanel.State :=
  RequirementsPanel.setProjectName (lit "Loan Automation") RequirementsPanel.initial.

Definition loan_ready : RequirementsPanel.State :=
  RequirementsPanel.setDocumentContent (JStr (lit "# Req"))
    (RequirementsPanel.setRequirements
       (JObj [(lit "project_name", JStr (lit "Loan Automation"))]) loan_idle).

Definition refused : FetchOutcome :=
  Responded 200
    (Parsed (JObj [(lit "success", JBool false);
                   (lit "error", JStr (lit "No conversation found"))])).

Definition two_use_cases : FetchOutcome :=
  Responded 200
    (Parsed (JObj [(lit "success", JBool true);
                   (lit "artifacts",
                    JArr [JObj [(lit "name", JStr (lit "Apply"))];
                          JObj [(lit "name", JStr (lit "Approve"))]])])).

Definition one_use_case : FetchOutcome :=
  Responded 200
    (Parsed (JObj [(lit "success", JBool true);
                   (lit "artifacts",
                    JArr [JObj [(lit "name", JStr (lit "Apply"))]])])).

(** ** The rendered controls

    The conditions under which the JSX renders a control and leaves it
    enabled, and the handlers of the controls that are not [async]. *)

Module ChatViewV1.
Import ChatInterfaceV1.

(** [disabled={isLoading}] on the text input. *)
Definition input_disabled (s : State) : bool := isLoading s.

(** [disabled={isLoading || !inputValue.trim()}] on the send button. *)
Definition send_disabled (s : State) : bool :=
  isLoading s || negb (truthy (JStr (trim (inputValue s)))).

(** [key={msg.id}] over [messages.map]. *)
Definition keys (s : State) : list Z := map id (messages s).

End ChatViewV1.

Module ChatViewV2.
Import ChatInterfaceV2.

(** [disabled={isLoading}] on the text input. *)
Definition input_disabled (s : State) : bool := isLoading s.

(** [disabled={isLoading || (!inputValue.trim() && !selectedFile)}] on the
    send button. *)
Definition send_disabled (s : State) : bool :=
  isLoading s
  || (negb (truthy (JStr (trim (inputValue s)))) && negb (attached s)).

(** The [onClick] of the badge's remove button. *)
Definition removeFile (s : State) : State :=
  resetFileInput (setSelectedFile None s).

(** [key={msg.id}] over [messages.map]. *)
Definition keys (s : State) : list Z := map id (messages s).

(** What can be done to the form short of submitting it: typing
    ([onChange] of the text input), a [change] of the file input, the remove
    button of the badge. *)
Inductive Edit : Type :=
| Typing (v : JsString)
| Picking (files : option (list File))
| Removing.

Definition edit (s : State) (e : Edit) : State :=
  match e with
  | Typing v => setInputValue v s
  | Picking files => handleFileChange files s
  | Removing => removeFile s
  end.

End ChatViewV2.

Module PanelView.
Import RequirementsPanel.

(** [!requirements ? <generate section> : <results section>]. *)
Definition results_shown (s : State) : bool := truthy (requirements s).

(** The generate button: in the generate section,
    [disabled={isGenerating || !projectName.trim()}]. *)
Definition generate_enabled (s : State) : bool :=
  negb (results_shown s)
  && negb (isGenerating s || negb (truthy (JStr (trim (projectName s))))).

(** The value [activeTab] has on the tab of a kind. *)
Definition tab_name (k : ArtifactKind) : JsString :=
  match k with
  | use_cases => lit "usecases"
  | user_stories => lit "stories"
  | process_diagram => lit "diagram"
  end.

(** The generate button of a kind's tab: in the results section, on that
    tab, while the slot is falsy; [disabled={isGenerating}]; its [onClick]
    calls [generateArtifact] with [kind_name]. *)
Definition artifact_button_shown (k : ArtifactKind) (s : State) : bool :=
  results_shown s
  && str_eqb (activeTab s) (tab_name k)
  && negb (truthy (slot k (artifacts s))).

Definition artifact_button_enabled (k : ArtifactKind) (s : State) : bool :=
  artifact_button_shown k s && negb (isGenerating s).

(** The download button: in the results section, never disabled. *)
Definition download_enabled (s : State) : bool := results_shown s.

(** The publish button: in the results section, [disabled={isGenerating}]. *)
Definition publish_enabled (s : State) : bool :=
  results_shown s && negb (isGenerating s).

End PanelView.

(** ** More vocabulary *)

(** The message a failed request leaves. *)
Definition fallback_message (settled : Z) : Message :=
  {| id := settled + 1; type := agent; content := JStr fallback_text;
     fileName := JUndefined; image := JUndefined |}.

(** The agent message of a settled request: the body's when the request was
    answered, the fallback otherwise. *)
Definition settled_message (settled : Z) (o : FetchOutcome) : Message :=
  if answered o then reply settled o else fallback_message settled.

(** What one submission adds to the transcript. *)
Definition added_v1 (x : ChatInterfaceV1.Submission) : list Message :=
  if ChatInterfaceV1.submittable x then
    [ {| id := ChatInterfaceV1.submitted_at x; type := user;
         content := JStr (ChatInterfaceV1.typed x);
         fileName := JUndefined; image := JUndefined |};
      settled_message (ChatInterfaceV1.settled_at x) (ChatInterfaceV1.settlement x) ]
  else [].

Definition added_v2 (x : ChatInterfaceV2.Submission) : list Message :=
  if ChatInterfaceV2.submittable x then
    [ {| id := ChatInterfaceV2.submitted_at x; type := user;
         content := JStr (ChatInterfaceV2.typed x);
         fileName := match ChatInterfaceV2.picked x with
                     | Some f => JStr (file_name f)
                     | None => JNull
                     end;
         image := JUndefined |};
      settled_message (ChatInterfaceV2.settled_at x) (ChatInterfaceV2.settlement x) ]
  else [].

(** A 2xx response with nothing to read a reply from: the body does not
    parse, or parses to [null].  The error the [catch] block receives. *)
Definition unusable (eng : Engine) (o : FetchOutcome) : option JsError :=
  match o with
  | Responded status (Unparsable e) => if ok status then Some e else None
  | Responded status (Parsed JNull) =>
      if ok status then
        Some (mkError (lit "TypeError")
                (nullish_read_message eng JNull (lit "response")))
      else None
  | _ => None
  end.

(** The request a handler's prefix issued, if any. *)
Definition issued {S : Type} (st : Step S) : option Request :=
  match st with
  | Returned _ _ => None
  | Awaiting _ _ req => Some req
  end.

(** The state and the trace a handler's prefix leaves. *)
Definition paused {S : Type} (st : Step S) : S * list Effect :=
  match st with
  | Returned s t => (s, t)
  | Awaiting s t _ => (s, t)
  end.


(** One of the three names [generateArtifact] compares with. *)
Definition known_kind (artifactType : JsString) : bool :=
  str_eqb artifactType (lit "use_cases")
  || str_eqb artifactType (lit "user_stories")
  || str_eqb artifactType (lit "process_diagram").



(** ** Proof steps shared by the handlers *)

Ltac by_outcome o :=
  let e := fresh "e" in
  let status := fresh "status" in
  let data := fresh "data" in
  destruct o as [e | status [e | data]]; [ | | destruct data ].

Ltac exec_step :=
  unfold try_catch_finally, window_open, bind, lift, update, emit, ret, throw,
    await_fetch, await_json, get; cbn.

Ltac split_ifs :=
  repeat match goal with
         | |- context [if ?b then _ else _] => destruct b
         end.

(** ** Lists of ids *)

Lemma sorted_snoc (l : list Z) (b x : Z) :
  StronglySorted Z.lt l ->
  Forall (fun i => (i <= b)%Z) l ->
  (b < x)%Z ->
  StronglySorted Z.lt (l ++ [x]) /\ Forall (fun i => (i <= x)%Z) (l ++ [x]).
Proof.
  intros Hs Hb Hx. split.
  - induction Hs as [ | a l Hs IH Ha ]; cbn.
    + constructor; constructor.
    + inversion Hb as [ | ? ? Hab Hl ]; subst.
      constructor; [ apply IH; assumption | ].
      apply Forall_app. split; [ assumption | ].
      constructor; [ lia | constructor ].
  - apply Forall_app. split.
    + eapply Forall_impl; [ | exact Hb ]. cbn. intros; lia.
    + constructor; [ lia | constructor ].
Qed.

Lemma alternates_exchanges {X : Type} (f : X -> list Message) (xs : list X) :
  (forall x, exists u a, f x = [u; a] /\ is_user u = true /\ is_agent a = true) ->
  alternates (flat_map f xs) = true
  /\ List.length (flat_map f xs) = 2 * List.length xs.
Proof.
  intros Hf. induction xs as [ | x xs [IHa IHl] ]; cbn.
  - split; reflexivity.
  - destruct (Hf x) as (u & a & E & Hu & Ha). rewrite E. cbn.
    rewrite Hu, Ha, IHa, IHl. split; [ reflexivity | lia ].
Qed.

Lemma reply_is_agent now o : is_agent (reply now o) = true.
Proof. destruct o as [ e | status [ e | data ] ]; reflexivity. Qed.

(** ** The transcript, first revision *)

Section TranscriptV1.
Import ChatInterfaceV1.
Variable eng : Engine.

(** Whatever comes back, the continuation completes normally and appends
    exactly one agent message, whose id is the clock reading plus one. *)
Lemma settle_appends_v1 now o s t :
  exists m t',
    handleSendMessage_settle eng now o s t
    = (Normal tt,
       setIsLoading false (setMessages (fun prev => prev ++ [m]) s), t')
    /\ id m = (now + 1)%Z /\ type m = agent
    /\ (failed o = true -> m = errorMessage now)
    /\ (answered o = true -> m = reply now o).
Proof.
  unfold handleSendMessage_settle.
  by_outcome o; exec_step;
    try (destruct (ok status) eqn:Hok; cbn);
    eexists; eexists; (split; [reflexivity | ]); cbn;
    repeat split; try reflexivity; try discriminate;
    rewrite ?Hok; cbn; intros; try discriminate; reflexivity.
Qed.

Lemma submit_appends_v1 s t x :
  submittable x = true ->
  exists m,
    messages (fst (submit eng (s, t) x))
    = messages s ++ [hd m (exchange_v1 x); m]
    /\ id m = (settled_at x + 1)%Z /\ type m = agent
    /\ (answered (settlement x) = true -> m = reply (settled_at x) (settlement x)).
Proof.
  intros Hsub. unfold submit, handleSendMessage, handleSendMessage_begin.
  cbn [fst snd inputValue setInputValue]. unfold submittable in Hsub.
  rewrite Hsub. cbn [negb].
  match goal with
  | |- context [handleSendMessage_settle eng ?n ?o ?s0 ?t0] =>
      destruct (settle_appends_v1 n o s0 t0) as (m & t' & E & Hid & Hty & _ & Hans)
  end.
  rewrite E. exists m. cbn.
  rewrite <- app_assoc. cbn.
  repeat split; assumption.
Qed.

Lemma submit_skips_v1 s t x :
  submittable x = false ->
  messages (fst (submit eng (s, t) x)) = messages s.
Proof.
  intros Hsub. unfold submit, handleSendMessage, handleSendMessage_begin.
  cbn [fst snd inputValue setInputValue]. unfold submittable in Hsub.
  rewrite Hsub. reflexivity.
Qed.

Lemma session_messages_v1 xs : forall s t,
  forallb (fun x => submittable x && answered (settlement x)) xs = true ->
  messages (fst (fold_left (submit eng) xs (s, t)))
  = messages s ++ flat_map exchange_v1 xs.
Proof.
  induction xs as [ | x xs IH ]; intros s t Hall; cbn.
  - rewrite app_nil_r. reflexivity.
  - cbn in Hall. apply andb_true_iff in Hall. destruct Hall as [Hx Hall].
    apply andb_true_iff in Hx. destruct Hx as [Hsub Hans].
    destruct (submit_appends_v1 s t x Hsub) as (m & Hm & _ & _ & Hr).
    destruct (submit eng (s, t) x) as [s' t'] eqn:E. cbn [fst] in *.
    rewrite (IH s' t' Hall), Hm, (Hr Hans), <- app_assoc.
    reflexivity.
Qed.

Lemma session_ids_v1 xs : forall s t last,
  StronglySorted Z.lt (map id (messages s)) ->
  Forall (fun i => (i <= last)%Z) (map id (messages s)) ->
  ticking_v1 last xs = true ->
  ids_increase (messages (fst (fold_left (submit eng) xs (s, t)))).
Proof.
  unfold ids_increase.
  induction xs as [ | x xs IH ]; intros s t last Hs Hb Ht; cbn.
  - exact Hs.
  - cbn in Ht. apply andb_true_iff in Ht. destruct Ht as [Ht Hrest].
    apply andb_true_iff in Ht. destruct Ht as [H1 H2].
    apply Z.ltb_lt in H1. apply Z.leb_le in H2.
    destruct (submittable x) eqn:Hsub.
    + destruct (submit_appends_v1 s t x Hsub) as (m & Hm & Hid & _ & _).
      destruct (submit eng (s, t) x) as [s' t'] eqn:E. cbn [fst] in *.
      destruct (sorted_snoc _ _ _ Hs Hb H1) as [Hs1 Hb1].
      assert (H3 : (submitted_at x < settled_at x + 1)%Z) by lia.
      destruct (sorted_snoc _ _ _ Hs1 Hb1 H3) as [Hs2 Hb2].
      rewrite <- app_assoc in Hs2, Hb2. cbn [app] in Hs2, Hb2.
      apply (IH s' t' (settled_at x + 1)%Z); [ | | exact Hrest ];
        rewrite Hm; cbn [hd exchange_v1]; rewrite map_app; cbn [map id];
        rewrite Hid; assumption.
    + pose proof (submit_skips_v1 s t x Hsub) as Hm.
      destruct (submit eng (s, t) x) as [s' t'] eqn:E. cbn [fst] in *.
      apply (IH s' t' (settled_at x + 1)%Z); [ | | exact Hrest ];
        rewrite Hm; [ exact Hs | ].
      eapply Forall_impl; [ | exact Hb ]. cbn. intros; lia.
Qed.
End TranscriptV1.

(** ** The transcript, second revision *)

Section TranscriptV2.
Import ChatInterfaceV2.
Variable eng : Engine.

(** Whatever comes back, the continuation completes normally and appends
    exactly one agent message, whose id is the clock reading plus one. *)
Lemma settle_appends_v2 now o s t :
  exists m t',
    handleSendMessage_settle eng now o s t
    = (Normal tt,
       resetFileInput (setIsLoading false (setMessages (fun prev => prev ++ [m]) s)),
       t')
    /\ id m = (now + 1)%Z /\ type m = agent
    /\ (failed o = true -> m = errorMessage now)
    /\ (answered o = true -> m = reply now o).
Proof.
  unfold handleSendMessage_settle.
  by_outcome o; exec_step;
    try (destruct (ok status) eqn:Hok; cbn);
    eexists; eexists; (split; [reflexivity | ]); cbn;
    repeat split; try reflexivity; try discriminate;
    rewrite ?Hok; cbn; intros; try discriminate; reflexivity.
Qed.

Lemma begin_submittable_v2 now s t :
  truthy (JStr (trim (inputValue s))) || attached s = true ->
  handleSendMessage_begin now s t
  = Awaiting
      (setIsLoading true (setSelectedFile None (setInputValue []
         (setMessages (fun prev => prev ++ [userMessage now s]) s))))
      t (chat_request (userMessage now s) (selectedFile s)).
Proof.
  intros H. unfold handleSendMessage_begin.
  destruct (truthy (JStr (trim (inputValue s)))), (attached s);
    cbn in *; try reflexivity; discriminate.
Qed.

Lemma begin_not_submittable_v2 now s t :
  truthy (JStr (trim (inputValue s))) || attached s = false ->
  handleSendMessage_begin now s t = Returned s t.
Proof.
  intros H. unfold handleSendMessage_begin.
  destruct (truthy (JStr (trim (inputValue s)))), (attached s);
    cbn in *; try reflexivity; discriminate.
Qed.

(** One submission from a state with no file left over appends the user
    message and then one agent message. *)
Lemma submit_appends_v2 s t x :
  selectedFile s = None ->
  submittable x = true ->
  exists m,
    messages (fst (submit eng (s, t) x))
    = messages s ++ [hd m (exchange_v2 x); m]
    /\ selectedFile (fst (submit eng (s, t) x)) = None
    /\ id m = (settled_at x + 1)%Z /\ type m = agent
    /\ (answered (settlement x) = true -> m = reply (settled_at x) (settlement x)).
Proof.
  intros Hsel Hsub. unfold submit, handleSendMessage. cbn [fst snd].
  rewrite begin_submittable_v2.
  2: { unfold submittable in Hsub. unfold attached, pick, handleFileChange.
       destruct (picked x); cbn; [ | rewrite Hsel ]; exact Hsub. }
  match goal with
  | |- context [handleSendMessage_settle eng ?n ?o ?s0 ?t0] =>
      destruct (settle_appends_v2 n o s0 t0) as (m & t' & E & Hid & Hty & _ & Hans)
  end.
  rewrite E. exists m. cbn.
  rewrite <- app_assoc. cbn.
  repeat split; try assumption.
  unfold userMessage, pick, handleFileChange.
  destruct (picked x); cbn; rewrite ?Hsel; reflexivity.
Qed.

Lemma submit_skips_v2 s t x :
  selectedFile s = None ->
  submittable x = false ->
  messages (fst (submit eng (s, t) x)) = messages s
  /\ selectedFile (fst (submit eng (s, t) x)) = None.
Proof.
  intros Hsel Hsub. unfold submit, handleSendMessage. cbn [fst snd].
  unfold submittable in Hsub.
  destruct (picked x) eqn:Hp;
    [ rewrite orb_true_r in Hsub; discriminate | rewrite orb_false_r in Hsub ].
  rewrite begin_not_submittable_v2.
  - cbn. split; [ reflexivity | exact Hsel ].
  - unfold attached, pick. cbn [inputValue selectedFile setInputValue].
    rewrite Hsel, Hsub. reflexivity.
Qed.

Lemma session_messages_v2 xs : forall s t,
  selectedFile s = None ->
  forallb (fun x => submittable x && answered (settlement x)) xs = true ->
  messages (fst (fold_left (submit eng) xs (s, t)))
  = messages s ++ flat_map exchange_v2 xs.
Proof.
  induction xs as [ | x xs IH ]; intros s t Hsel Hall; cbn.
  - rewrite app_nil_r. reflexivity.
  - cbn in Hall. apply andb_true_iff in Hall. destruct Hall as [Hx Hall].
    apply andb_true_iff in Hx. destruct Hx as [Hsub Hans].
    destruct (submit_appends_v2 s t x Hsel Hsub) as (m & Hm & Hsel' & _ & _ & Hr).
    destruct (submit eng (s, t) x) as [s' t'] eqn:E. cbn [fst] in *.
    rewrite (IH s' t' Hsel' Hall), Hm, (Hr Hans), <- app_assoc.
    reflexivity.
Qed.

Lemma session_ids_v2 xs : forall s t last,
  selectedFile s = None ->
  StronglySorted Z.lt (map id (messages s)) ->
  Forall (fun i => (i <= last)%Z) (map id (messages s)) ->
  ticking_v2 last xs = true ->
  ids_increase (messages (fst (fold_left (submit eng) xs (s, t)))).
Proof.
  unfold ids_increase.
  induction xs as [ | x xs IH ]; intros s t last Hsel Hs Hb Ht; cbn.
  - exact Hs.
  - cbn in Ht. apply andb_true_iff in Ht. destruct Ht as [Ht Hrest].
    apply andb_true_iff in Ht. destruct Ht as [H1 H2].
    apply Z.ltb_lt in H1. apply Z.leb_le in H2.
    destruct (submittable x) eqn:Hsub.
    + destruct (submit_appends_v2 s t x Hsel Hsub) as (m & Hm & Hsel' & Hid & _ & _).
      destruct (submit eng (s, t) x) as [s' t'] eqn:E. cbn [fst] in *.
      destruct (sorted_snoc _ _ _ Hs Hb H1) as [Hs1 Hb1].
      assert (H3 : (submitted_at x < settled_at x + 1)%Z) by lia.
      destruct (sorted_snoc _ _ _ Hs1 Hb1 H3) as [Hs2 Hb2].
      rewrite <- app_assoc in Hs2, Hb2. cbn [app] in Hs2, Hb2.
      apply (IH s' t' (settled_at x + 1)%Z Hsel'); [ | | exact Hrest ];
        rewrite Hm; cbn [hd exchange_v2]; rewrite map_app; cbn [map id];
        rewrite Hid; assumption.
    + destruct (submit_skips_v2 s t x Hsel Hsub) as [Hm Hsel'].
      destruct (submit eng (s, t) x) as [s' t'] eqn:E. cbn [fst] in *.
      apply (IH s' t' (settled_at x + 1)%Z Hsel'); [ | | exact Hrest ];
        rewrite Hm; [ exact Hs | ].
      eapply Forall_impl; [ | exact Hb ]. cbn. intros; lia.
Qed.
End TranscriptV2.

(** ** The conversation widget *)

(** C1.  After N submissions made one after the other, each of them
    submittable and each answered successfully, the transcript is the welcome
    message followed by the N exchanges in order, each the user message and
    then its agent message: its length is 1 + 2N and, past the welcome
    message, user and agent messages alternate.  Both revisions. *)
Theorem transcript_of_answered_session :
  forall (eng : Engine) (file_input : option JsString)
         (xs1 : list ChatInterfaceV1.Submission)
         (xs2 : list ChatInterfaceV2.Submission),
    forallb (fun x => ChatInterfaceV1.submittable x
                      && answered (ChatInterfaceV1.settlement x)) xs1 = true ->
    forallb (fun x => ChatInterfaceV2.submittable x
                      && answered (ChatInterfaceV2.settlement x)) xs2 = true ->
    let ms1 := ChatInterfaceV1.messages (fst (ChatInterfaceV1.session eng xs1)) in
    let ms2 := ChatInterfaceV2.messages
                 (fst (ChatInterfaceV2.session eng file_input xs2)) in
    (ms1 = welcome :: flat_map exchange_v1 xs1
     /\ List.length ms1 = 1 + 2 * List.length xs1
     /\ alternates (tl ms1) = true)
    /\ (ms2 = welcome :: flat_map exchange_v2 xs2
        /\ List.length ms2 = 1 + 2 * List.length xs2
        /\ alternates (tl ms2) = true).
Proof.
  intros eng file_input xs1 xs2 H1 H2 ms1 ms2.
  assert (E1 : ms1 = welcome :: flat_map exchange_v1 xs1).
  { apply (session_messages_v1 eng xs1 ChatInterfaceV1.initial [] H1). }
  assert (E2 : ms2 = welcome :: flat_map exchange_v2 xs2).
  { apply (session_messages_v2 eng xs2 (ChatInterfaceV2.initial file_input) []
             eq_refl H2). }
  assert (A1 : alternates (flat_map exchange_v1 xs1) = true
               /\ List.length (flat_map exchange_v1 xs1) = 2 * List.length xs1).
  { apply alternates_exchanges. intros x. do 2 eexists.
    split; [ reflexivity | ]. split; [ reflexivity | apply reply_is_agent ]. }
  assert (A2 : alternates (flat_map exchange_v2 xs2) = true
               /\ List.length (flat_map exchange_v2 xs2) = 2 * List.length xs2).
  { apply alternates_exchanges. intros x. do 2 eexists.
    split; [ reflexivity | ]. split; [ reflexivity | apply reply_is_agent ]. }
  rewrite E1, E2. cbn [tl List.length].
  destruct A1 as [A1 L1], A2 as [A2 L2]. rewrite L1, L2.
  repeat split; assumption.
Qed.

Lemma transcript_of_answered_session_witness :
  let xs1 := [ChatInterfaceV1.mkSubmission (lit "Show Q1 revenue")
                1730000000000 1730000000850 q1_revenue] in
  let xs2 := [ChatInterfaceV2.mkSubmission (lit "Show Q1 revenue") None
                1730000000000 1730000000850 q1_revenue;
              ChatInterfaceV2.mkSubmission [] (Some sheet)
                1730000007000 1730000009000 q1_revenue] in
  let ms1 := ChatInterfaceV1.messages (fst (ChatInterfaceV1.session v8 xs1)) in
  let ms2 := ChatInterfaceV2.messages
               (fst (ChatInterfaceV2.session v8 (Some []) xs2)) in
  (ms1 = welcome :: flat_map exchange_v1 xs1
   /\ List.length ms1 = 3
   /\ alternates (tl ms1) = true)
  /\ (ms2 = welcome :: flat_map exchange_v2 xs2
      /\ List.length ms2 = 5
      /\ alternates (tl ms2) = true).
Proof.
  intros xs1 xs2.
  exact (transcript_of_answered_session v8 (Some []) xs1 xs2 eq_refl eq_refl).
Defined.

(** C2.  When the chat request fails, by a rejected [fetch] or by a status
    outside 2xx, the rest of the handler completes normally and appends
    exactly one message: an agent message whose content is the fixed fallback
    notice.  The handler as a whole completes normally too: nothing is thrown
    out of it.  Both revisions. *)
Theorem failed_chat_request_appends_fallback :
  forall (eng : Engine) (submitted now : Z) (o : FetchOutcome)
         (s1 : ChatInterfaceV1.State) (s2 : ChatInterfaceV2.State)
         (t : list Effect),
    failed o = true ->
    let r1 := ChatInterfaceV1.handleSendMessage_settle eng now o s1 t in
    let r2 := ChatInterfaceV2.handleSendMessage_settle eng now o s2 t in
    let notice := {| id := now + 1; type := agent; content := JStr fallback_text;
                     fileName := JUndefined; image := JUndefined |} in
    (completion r1 = Normal tt
     /\ ChatInterfaceV1.messages (after r1) = ChatInterfaceV1.messages s1 ++ [notice]
     /\ completion (ChatInterfaceV1.handleSendMessage eng submitted now o s1 t)
        = Normal tt)
    /\ (completion r2 = Normal tt
        /\ ChatInterfaceV2.messages (after r2)
           = ChatInterfaceV2.messages s2 ++ [notice]
        /\ completion (ChatInterfaceV2.handleSendMessage eng submitted now o s2 t)
           = Normal tt).
Proof.
  intros eng submitted now o s1 s2 t Hf r1 r2 notice.
  destruct (settle_appends_v1 eng now o s1 t) as (m1 & t1 & E1 & _ & _ & F1 & _).
  destruct (settle_appends_v2 eng now o s2 t) as (m2 & t2 & E2 & _ & _ & F2 & _).
  subst r1 r2. rewrite E1, E2, (F1 Hf), (F2 Hf).
  unfold ChatInterfaceV1.handleSendMessage, ChatInterfaceV2.handleSendMessage.
  destruct (ChatInterfaceV1.handleSendMessage_begin submitted s1 t)
    as [ s1' t1' | s1' t1' q1 ];
    destruct (ChatInterfaceV2.handleSendMessage_begin submitted s2 t)
      as [ s2' t2' | s2' t2' q2 ];
    try destruct (settle_appends_v1 eng now o s1' t1') as (? & ? & -> & _);
    try destruct (settle_appends_v2 eng now o s2' t2') as (? & ? & -> & _);
    repeat split; reflexivity.
Qed.

Lemma failed_chat_request_appends_fallback_witness :
  let s1 := ChatInterfaceV1.setIsLoading true ChatInterfaceV1.initial in
  let s2 := ChatInterfaceV2.setIsLoading true (ChatInterfaceV2.initial (Some [])) in
  let o := Responded 502 (Parsed (JObj [(lit "response", JStr (lit "late"))])) in
  let r1 := ChatInterfaceV1.handleSendMessage_settle v8 1730000000850 o s1 [] in
  let r2 := ChatInterfaceV2.handleSendMessage_settle v8 1730000000850 o s2 [] in
  let notice := {| id := 1730000000851; type := agent;
                   content := JStr fallback_text;
                   fileName := JUndefined; image := JUndefined |} in
  (completion r1 = Normal tt
   /\ ChatInterfaceV1.messages (after r1) = [welcome; notice]
   /\ completion (ChatInterfaceV1.handleSendMessage v8 1730000000000
                    1730000000850 o s1 []) = Normal tt)
  /\ (completion r2 = Normal tt
      /\ ChatInterfaceV2.messages (after r2) = [welcome; notice]
      /\ completion (ChatInterfaceV2.handleSendMessage v8 1730000000000
                       1730000000850 o s2 []) = Normal tt).
Proof.
  intros s1 s2 o.
  exact (failed_chat_request_appends_fallback v8 1730000000000 1730000000850 o
           s1 s2 [] eq_refl).
Defined.

(** C8.  With the clock stepping back between two submissions (the wall clock
    is what [Date.now()] reads), the second user message gets an id below the
    id of the agent message before it.  Both revisions. *)
Lemma ids_drop_when_clock_steps_back :
  let xs1 := [ChatInterfaceV1.mkSubmission (lit "Show Q1 revenue")
                1730000000000 1730000000850 q1_revenue;
              ChatInterfaceV1.mkSubmission (lit "And Q2?")
                1730000000300 1730000001100 q1_revenue] in
  let xs2 := [ChatInterfaceV2.mkSubmission (lit "Show Q1 revenue") None
                1730000000000 1730000000850 q1_revenue;
              ChatInterfaceV2.mkSubmission (lit "And Q2?") None
                1730000000300 1730000001100 q1_revenue] in
  let ms1 := ChatInterfaceV1.messages (fst (ChatInterfaceV1.session v8 xs1)) in
  let ms2 := ChatInterfaceV2.messages
               (fst (ChatInterfaceV2.session v8 (Some []) xs2)) in
  (map id ms1
   = [1; 1730000000000; 1730000000851; 1730000000300; 1730000001101]%Z
   /\ ~ ids_increase ms1)
  /\ (map id ms2
      = [1; 1730000000000; 1730000000851; 1730000000300; 1730000001101]%Z
      /\ ~ ids_increase ms2).
Proof.
  intros xs1 xs2 ms1 ms2.
  assert (E1 : map id ms1
               = [1; 1730000000000; 1730000000851; 1730000000300; 1730000001101]%Z)
    by (vm_compute; reflexivity).
  assert (E2 : map id ms2
               = [1; 1730000000000; 1730000000851; 1730000000300; 1730000001101]%Z)
    by (vm_compute; reflexivity).
  unfold ids_increase. rewrite E1, E2.
  assert (N : ~ StronglySorted Z.lt
                [1; 1730000000000; 1730000000851; 1730000000300; 1730000001101]%Z).
  { intros H.
    apply StronglySorted_inv in H as [H _].
    apply StronglySorted_inv in H as [H _].
    apply StronglySorted_inv in H as [_ H].
    inversion H as [ | ? ? Hlt _ ]; subst. lia. }
  repeat split; assumption.
Qed.

(** C8, as the code has it.  An id is a clock reading (user message) or a
    clock reading plus one (agent message, answer or fallback alike).  When
    the first submission reads the clock above 1, every request settles no
    earlier than it was submitted, and every later submission reads the clock
    above the previous settlement's reading plus one, each message of the
    transcript has an id greater than all ids before it, whatever the
    outcomes.  Both revisions. *)
Theorem ids_increase_while_clock_ticks :
  forall (eng : Engine) (file_input : option JsString)
         (xs1 : list ChatInterfaceV1.Submission)
         (xs2 : list ChatInterfaceV2.Submission),
    ticking_v1 1 xs1 = true ->
    ticking_v2 1 xs2 = true ->
    ids_increase (ChatInterfaceV1.messages (fst (ChatInterfaceV1.session eng xs1)))
    /\ ids_increase
         (ChatInterfaceV2.messages (fst (ChatInterfaceV2.session eng file_input xs2))).
Proof.
  intros eng file_input xs1 xs2 H1 H2.
  assert (S1 : StronglySorted Z.lt [1%Z]) by (constructor; constructor).
  assert (B1 : Forall (fun i => (i <= 1)%Z) [1%Z]) by (constructor; [ lia | constructor ]).
  split.
  - exact (session_ids_v1 eng xs1 ChatInterfaceV1.initial [] 1%Z S1 B1 H1).
  - exact (session_ids_v2 eng xs2 (ChatInterfaceV2.initial file_input) [] 1%Z
             eq_refl S1 B1 H2).
Qed.

Lemma ids_increase_while_clock_ticks_witness :
  let xs1 := [ChatInterfaceV1.mkSubmission (lit "Show Q1 revenue")
                1730000000000 1730000000850 q1_revenue;
              ChatInterfaceV1.mkSubmission (lit "And Q2?")
                1730000004000 1730000004000 (Rejected failed_to_fetch)] in
  let xs2 := [ChatInterfaceV2.mkSubmission (lit "Show Q1 revenue") None
                1730000000000 1730000000850 q1_revenue;
              ChatInterfaceV2.mkSubmission [] (Some sheet)
                1730000007000 1730000009000 (Responded 500 (Parsed JNull))] in
  ids_increase (ChatInterfaceV1.messages (fst (ChatInterfaceV1.session v8 xs1)))
  /\ ids_increase
       (ChatInterfaceV2.messages (fst (ChatInterfaceV2.session v8 (Some []) xs2))).
Proof.
  intros xs1 xs2.
  exact (ids_increase_while_clock_ticks v8 (Some []) xs1 xs2 eq_refl eq_refl).
Defined.

(** ** The document widget *)

Lemma trimStart_blank (s : JsString) : blank s = true -> trimStart s = [].
Proof.
  induction s as [ | c s IH ]; cbn; [ reflexivity | ].
  intros H. apply andb_true_iff in H. destruct H as [Hc Hs].
  rewrite Hc. apply IH, Hs.
Qed.

Lemma trim_blank (s : JsString) : blank s = true -> trim s = [].
Proof.
  intros H. unfold trim, trimEnd. rewrite (trimStart_blank s H). reflexivity.
Qed.

Lemma kind_name_use_cases (k : ArtifactKind) :
  str_eqb (kind_name k) (lit "use_cases") = kind_eqb k use_cases.
Proof. destruct k; vm_compute; reflexivity. Qed.

Lemma kind_name_user_stories (k : ArtifactKind) :
  str_eqb (kind_name k) (lit "user_stories") = kind_eqb k user_stories.
Proof. destruct k; vm_compute; reflexivity. Qed.

Lemma kind_name_process_diagram (k : ArtifactKind) :
  str_eqb (kind_name k) (lit "process_diagram") = kind_eqb k process_diagram.
Proof. destruct k; vm_compute; reflexivity. Qed.

Section Panel.
Import RequirementsPanel.
Variable eng : Engine.

(** A successful artifact request, run from a state that has requirements. *)
Lemma generateArtifact_stores (k : ArtifactKind) (o : FetchOutcome) s t :
  truthy (requirements s) = true ->
  reports_success o = true ->
  let r := generateArtifact eng (kind_name k) o s t in
  completion r = Normal tt
  /\ slot k (artifacts (after r)) = payload k o
  /\ (forall k', kind_eqb k' k = false ->
                 slot k' (artifacts (after r)) = slot k' (artifacts s))
  /\ requirements (after r) = requirements s.
Proof.
  intros Hreq Hok.
  unfold generateArtifact, run, generateArtifact_begin. rewrite Hreq. cbn [negb].
  unfold generateArtifact_settle.
  by_outcome o; try discriminate Hok. cbn in Hok.
  rewrite kind_name_use_cases, kind_name_user_stories, kind_name_process_diagram.
  exec_step. rewrite Hok.
  destruct k; cbn; (repeat split; try reflexivity);
    intros k' Hk'; destruct k'; try discriminate Hk'; reflexivity.
Qed.
End Panel.

(** C3.  A run of [generateRequirements] whose request was issued and did
    not come back with a truthy [success] (falsy or missing [success], a body
    that does not parse or is [null], a rejected [fetch]) completes normally
    and leaves the requirements payload and the document text as they were,
    so an idle widget stays idle; [error] becomes the body's [error] when the
    body has a truthy one, the generic generation notice when the body has
    none, the connectivity notice when there is no usable body. *)
Theorem failing_generateRequirements_stays_idle :
  forall (eng : Engine) (sessionId : JsVal) (o : FetchOutcome)
         (s : RequirementsPanel.State) (t : list Effect),
    truthy (JStr (trim (RequirementsPanel.projectName s))) = true ->
    reports_success o = false ->
    let r := RequirementsPanel.generateRequirements eng sessionId o s t in
    completion r = Normal tt
    /\ RequirementsPanel.requirements (after r) = RequirementsPanel.requirements s
    /\ RequirementsPanel.documentContent (after r)
       = RequirementsPanel.documentContent s
    /\ RequirementsPanel.error (after r)
       = surfaced RequirementsPanel.requirements_failed o.
Proof.
  intros eng sessionId o s t Hname Hfail.
  unfold RequirementsPanel.generateRequirements, RequirementsPanel.run,
    RequirementsPanel.generateRequirements_begin.
  rewrite Hname. cbn [negb].
  unfold RequirementsPanel.generateRequirements_settle.
  by_outcome o; exec_step; try (repeat split; reflexivity).
  cbn in Hfail. rewrite Hfail. cbn. repeat split; reflexivity.
Qed.

Lemma failing_generateRequirements_stays_idle_witness :
  let r := RequirementsPanel.generateRequirements v8 (JStr (lit "abc")) refused
             loan_idle [] in
  completion r = Normal tt
  /\ RequirementsPanel.requirements (after r) = JNull
  /\ RequirementsPanel.documentContent (after r) = JNull
  /\ RequirementsPanel.error (after r) = JStr (lit "No conversation found").
Proof.
  assert (H := failing_generateRequirements_stays_idle v8 (JStr (lit "abc"))
                 refused loan_idle []
                 ltac:(vm_compute; reflexivity) ltac:(vm_compute; reflexivity)).
  vm_compute in H. vm_compute. exact H.
Defined.

(** C4.  For each of the three kinds, a successful [generateArtifact] run
    puts the returned payload ([artifacts] for use cases and user stories,
    [diagram] for the process diagram) into the slot of that kind and leaves
    the two other slots as they were; a second successful run for the same
    kind replaces the content of that slot and the two other slots are still
    as they were before the first run. *)
Theorem generateArtifact_fills_only_its_slot :
  forall (eng : Engine) (k : ArtifactKind) (o o' : FetchOutcome)
         (s : RequirementsPanel.State) (t : list Effect),
    truthy (RequirementsPanel.requirements s) = true ->
    reports_success o = true ->
    reports_success o' = true ->
    let r := RequirementsPanel.generateArtifact eng (kind_name k) o s t in
    let r' := RequirementsPanel.generateArtifact eng (kind_name k) o'
                (after r) (effects r) in
    (slot k (RequirementsPanel.artifacts (after r)) = payload k o
     /\ forall k', kind_eqb k' k = false ->
          slot k' (RequirementsPanel.artifacts (after r))
          = slot k' (RequirementsPanel.artifacts s))
    /\ (slot k (RequirementsPanel.artifacts (after r')) = payload k o'
        /\ forall k', kind_eqb k' k = false ->
             slot k' (RequirementsPanel.artifacts (after r'))
             = slot k' (RequirementsPanel.artifacts s)).
Proof.
  intros eng k o o' s t Hreq Hok Hok' r r'.
  destruct (generateArtifact_stores eng k o s t Hreq Hok) as (_ & H1 & H2 & H3).
  fold r in H1, H2, H3.
  assert (Hreq' : truthy (RequirementsPanel.requirements (after r)) = true)
    by (rewrite H3; exact Hreq).
  destruct (generateArtifact_stores eng k o' (after r) (effects r) Hreq' Hok')
    as (_ & H1' & H2' & _).
  fold r' in H1', H2'.
  repeat split; try assumption.
  intros k' Hk'. rewrite (H2' k' Hk'). apply H2, Hk'.
Qed.

Lemma generateArtifact_fills_only_its_slot_witness :
  let r := RequirementsPanel.generateArtifact v8 (kind_name use_cases)
             one_use_case loan_ready [] in
  let r' := RequirementsPanel.generateArtifact v8 (kind_name use_cases)
              two_use_cases (after r) (effects r) in
  (slot use_cases (RequirementsPanel.artifacts (after r))
   = payload use_cases one_use_case
   /\ forall k', kind_eqb k' use_cases = false ->
        slot k' (RequirementsPanel.artifacts (after r))
        = slot k' (RequirementsPanel.artifacts loan_ready))
  /\ (slot use_cases (RequirementsPanel.artifacts (after r'))
      = payload use_cases two_use_cases
      /\ forall k', kind_eqb k' use_cases = false ->
           slot k' (RequirementsPanel.artifacts (after r'))
           = slot k' (RequirementsPanel.artifacts loan_ready)).
Proof.
  exact (generateArtifact_fills_only_its_slot v8 use_cases one_use_case
           two_use_cases loan_ready []
           ltac:(vm_compute; reflexivity) ltac:(vm_compute; reflexivity)
           ltac:(vm_compute; reflexivity)).
Defined.

(** C5.  Invoked with its precondition unmet, each operation returns at
    once: no request is issued and nothing is logged; [error] holds the
    operation's validation notice and every other part of the state is as it
    was.  [generateRequirements] with an empty or white-space-only project
    name, [generateArtifact] without a requirements payload,
    [publishToConfluence] without a document text. *)
Theorem unmet_precondition_is_reported_locally :
  forall (sessionId : JsVal) (artifactType : JsString)
         (s1 s2 s3 : RequirementsPanel.State) (t : list Effect),
    blank (RequirementsPanel.projectName s1) = true ->
    truthy (RequirementsPanel.requirements s2) = false ->
    truthy (RequirementsPanel.documentContent s3) = false ->
    (exists s',
        RequirementsPanel.generateRequirements_begin sessionId s1 t = Returned s' t
        /\ RequirementsPanel.error s' = JStr RequirementsPanel.enter_project_name
        /\ same_but_error s1 s')
    /\ (exists s',
           RequirementsPanel.generateArtifact_begin artifactType s2 t = Returned s' t
           /\ RequirementsPanel.error s' = JStr RequirementsPanel.requirements_first
           /\ same_but_error s2 s')
    /\ (exists s',
           RequirementsPanel.publishToConfluence_begin s3 t = Returned s' t
           /\ RequirementsPanel.error s' = JStr RequirementsPanel.document_first
           /\ same_but_error s3 s').
Proof.
  intros sessionId artifactType s1 s2 s3 t H1 H2 H3.
  unfold RequirementsPanel.generateRequirements_begin,
    RequirementsPanel.generateArtifact_begin,
    RequirementsPanel.publishToConfluence_begin.
  rewrite (trim_blank _ H1), H2, H3. cbn [truthy negb].
  repeat split; eexists; (split; [ reflexivity | ]);
    (split; [ reflexivity | ]); repeat split; reflexivity.
Qed.

Lemma unmet_precondition_is_reported_locally_witness :
  let spaces := RequirementsPanel.setProjectName [32; 9; 160]%N
                  RequirementsPanel.initial in
  (exists s',
      RequirementsPanel.generateRequirements_begin (JStr (lit "abc")) spaces []
      = Returned s' []
      /\ RequirementsPanel.error s' = JStr RequirementsPanel.enter_project_name
      /\ same_but_error spaces s')
  /\ (exists s',
         RequirementsPanel.generateArtifact_begin (lit "user_stories") loan_idle []
         = Returned s' []
         /\ RequirementsPanel.error s' = JStr RequirementsPanel.requirements_first
         /\ same_but_error loan_idle s')
  /\ (exists s',
         RequirementsPanel.publishToConfluence_begin loan_idle [] = Returned s' []
         /\ RequirementsPanel.error s' = JStr RequirementsPanel.document_first
         /\ same_but_error loan_idle s').
Proof.
  intros spaces.
  exact (unmet_precondition_is_reported_locally (JStr (lit "abc"))
           (lit "user_stories") spaces loan_idle loan_idle []
           ltac:(vm_compute; reflexivity) ltac:(vm_compute; reflexivity)
           ltac:(vm_compute; reflexivity)).
Defined.



(** C7.  [publishToConfluence] puts the text of the underlying error into
    the notice: two rejections that differ in their message leave two
    different notices, neither of them the bare connectivity notice. *)
Lemma publish_notice_quotes_the_error :
  let notice e :=
    RequirementsPanel.error
      (after (RequirementsPanel.publishToConfluence v8 false (Rejected e)
                loan_ready [])) in
  let load_failed := mkError (lit "TypeError") (lit "Load failed") in
  notice failed_to_fetch
  = JStr (lit "Ошибка подключения к серверу: Failed to fetch")
  /\ notice load_failed = JStr (lit "Ошибка подключения к серверу: Load failed")
  /\ notice failed_to_fetch <> notice load_failed
  /\ notice failed_to_fetch <> JStr RequirementsPanel.server_unreachable.
Proof.
  intros notice load_failed. subst notice load_failed. cbv beta.
  repeat split; try (vm_compute; reflexivity); vm_compute; discriminate.
Qed.

(** C7, as the code has it.  When the request is rejected, the chat handler
    (both revisions) appends the fixed fallback message, and
    [generateRequirements] and [generateArtifact] set the fixed connectivity
    notice, whatever the error; [publishToConfluence] sets the connectivity
    notice followed by a colon, a space and the error's message.  In all of
    them the error object goes to [console.error] and nowhere else. *)
Theorem transport_error_notices :
  forall (eng : Engine) (now : Z) (confirmed : bool) (artifactType : JsString)
         (e : JsError) (c1 : ChatInterfaceV1.State) (c2 : ChatInterfaceV2.State)
         (p : RequirementsPanel.State) (t : list Effect),
    let chat1 := ChatInterfaceV1.handleSendMessage_settle eng now (Rejected e) c1 t in
    let chat2 := ChatInterfaceV2.handleSendMessage_settle eng now (Rejected e) c2 t in
    let req := RequirementsPanel.generateRequirements_settle eng (Rejected e) p t in
    let art := RequirementsPanel.generateArtifact_settle eng artifactType
                 (Rejected e) p t in
    let pub := RequirementsPanel.publishToConfluence_settle eng confirmed
                 (Rejected e) p t in
    (ChatInterfaceV1.messages (after chat1)
     = ChatInterfaceV1.messages c1 ++ [ChatInterfaceV1.errorMessage now]
     /\ effects chat1
        = t ++ [ConsoleError [LogValue (JStr (lit "Error:")); LogError e]])
    /\ (ChatInterfaceV2.messages (after chat2)
        = ChatInterfaceV2.messages c2 ++ [ChatInterfaceV2.errorMessage now]
        /\ effects chat2
           = t ++ [ConsoleError [LogValue (JStr (lit "Error:")); LogError e]])
    /\ (RequirementsPanel.error (after req)
        = JStr RequirementsPanel.server_unreachable
        /\ effects req = t ++ [ConsoleError [LogError e]])
    /\ (RequirementsPanel.error (after art)
        = JStr RequirementsPanel.server_unreachable
        /\ effects art = t ++ [ConsoleError [LogError e]])
    /\ (RequirementsPanel.error (after pub)
        = JStr (RequirementsPanel.server_unreachable ++ lit ": " ++ err_message e)
        /\ effects pub
           = t ++ [ConsoleError [LogValue (JStr (lit "❌ Exception:")); LogError e]]).
Proof.
  intros. repeat split; reflexivity.
Qed.


(** A 500 whose body says [success: true] makes the widget ready. *)
Example generateRequirements_ready_on_500 :
  after (RequirementsPanel.generateRequirements v8 (JStr (lit "abc"))
           (Responded 500
              (Parsed (JObj [(lit "success", JBool true);
                             (lit "requirements",
                              JObj [(lit "project_name",
                                     JStr (lit "Loan Automation"))]);
                             (lit "document", JStr (lit "# Req"))])))
           loan_idle [])
  = loan_ready.
Proof. vm_compute. reflexivity. Qed.

(** C10.  Whatever happens to the request, and also when none is issued, a
    run of [publishToConfluence] completes normally and leaves the project
    name, the requirements payload, the document text, the three artifact
    slots and the active tab as they were: only [isGenerating] and [error]
    can differ. *)
Theorem publishToConfluence_frame :
  forall (eng : Engine) (confirmed : bool) (o : FetchOutcome)
         (s : RequirementsPanel.State) (t : list Effect),
    let r := RequirementsPanel.publishToConfluence eng confirmed o s t in
    completion r = Normal tt
    /\ RequirementsPanel.projectName (after r) = RequirementsPanel.projectName s
    /\ RequirementsPanel.requirements (after r) = RequirementsPanel.requirements s
    /\ RequirementsPanel.documentContent (after r)
       = RequirementsPanel.documentContent s
    /\ RequirementsPanel.artifacts (after r) = RequirementsPanel.artifacts s
    /\ RequirementsPanel.activeTab (after r) = RequirementsPanel.activeTab s.
Proof.
  intros eng confirmed o s t.
  unfold RequirementsPanel.publishToConfluence, RequirementsPanel.run,
    RequirementsPanel.publishToConfluence_begin.
  destruct (truthy (RequirementsPanel.documentContent s)); cbn [negb].
  - unfold RequirementsPanel.publishToConfluence_settle.
    by_outcome o; exec_step; try (repeat split; reflexivity).
    destruct (truthy (own_property (lit "success") fields)); cbn;
      [ destruct confirmed;
        [ destruct (open_failure eng (own_property (lit "page_url") fields)) | ]
      | ]; cbn; repeat split; reflexivity.
  - cbn. repeat split; reflexivity.
Qed.

(** ** More on the form of the conversation widget *)

Lemma trimStart_not_blank (s : JsString) :
  blank s = false ->
  exists c s', trimStart s = c :: s' /\ is_white_space c = false.
Proof.
  induction s as [ | c s IH ]; cbn; [ discriminate | ].
  destruct (is_white_space c) eqn:Hc; cbn.
  - exact IH.
  - intros _. exists c, s. split; reflexivity || assumption.
Qed.

(** [!s.trim()] is true exactly for the empty and the white-space-only
    strings. *)
Lemma trim_truthy (s : JsString) : truthy (JStr (trim s)) = negb (blank s).
Proof.
  destruct (blank s) eqn:Hb; cbn [negb].
  - rewrite (trim_blank s Hb). reflexivity.
  - destruct (trimStart_not_blank s Hb) as (c & s' & E & Hc).
    unfold trim, trimEnd. rewrite E.
    assert (Hr : blank (rev (c :: s')) = false).
    { cbn [rev]. unfold blank. rewrite forallb_app. cbn. rewrite Hc.
      apply andb_false_r. }
    destruct (trimStart_not_blank _ Hr) as (c2 & s2 & E2 & _).
    rewrite E2. cbn [rev]. destruct (rev s2); reflexivity.
Qed.

Lemma sorted_no_dup (l : list Z) : StronglySorted Z.lt l -> NoDup l.
Proof.
  induction 1 as [ | a l Hs IH Ha ]; constructor; [ | exact IH ].
  intros Hin. rewrite Forall_forall in Ha. specialize (Ha a Hin). lia.
Qed.

Section FormV1.
Import ChatInterfaceV1.
Variable eng : Engine.

Lemma settle_exact_v1 now o s t :
  exists t',
    handleSendMessage_settle eng now o s t
    = (Normal tt,
       setIsLoading false
         (setMessages (fun prev => prev ++ [settled_message now o]) s),
       t').
Proof.
  unfold handleSendMessage_settle, settled_message.
  by_outcome o; exec_step;
    try (destruct (ok status) eqn:Hok; cbn);
    eexists; reflexivity.
Qed.

Lemma submit_exact_v1 s t x :
  messages (fst (submit eng (s, t) x)) = messages s ++ added_v1 x
  /\ isLoading (fst (submit eng (s, t) x))
     = if submittable x then false else isLoading s.
Proof.
  unfold submit, handleSendMessage, handleSendMessage_begin, added_v1, submittable.
  cbn [fst snd inputValue setInputValue].
  destruct (truthy (JStr (trim (typed x)))); cbn [negb].
  - match goal with
    | |- context [handleSendMessage_settle eng ?n ?o ?s0 ?t0] =>
        destruct (settle_exact_v1 n o s0 t0) as (t' & E)
    end.
    rewrite E. cbn. rewrite <- app_assoc. split; reflexivity.
  - cbn. rewrite app_nil_r. split; reflexivity.
Qed.

Lemma session_exact_v1 xs : forall s t,
  messages (fst (fold_left (submit eng) xs (s, t)))
  = messages s ++ flat_map added_v1 xs
  /\ (isLoading s = false ->
      isLoading (fst (fold_left (submit eng) xs (s, t))) = false).
Proof.
  induction xs as [ | x xs IH ]; intros s t; cbn.
  - rewrite app_nil_r. split; [ reflexivity | trivial ].
  - destruct (submit_exact_v1 s t x) as [Hm Hl].
    destruct (submit eng (s, t) x) as [s' t'] eqn:E. cbn [fst] in *.
    destruct (IH s' t') as [IHm IHl]. split.
    + rewrite IHm, Hm, <- app_assoc. reflexivity.
    + intros H0. apply IHl. rewrite Hl. destruct (submittable x); [ reflexivity | exact H0 ].
Qed.
End FormV1.

Section FormV2.
Import ChatInterfaceV2.
Variable eng : Engine.

Lemma settle_exact_v2 now o s t :
  exists t',
    handleSendMessage_settle eng now o s t
    = (Normal tt,
       resetFileInput
         (setIsLoading false
            (setMessages (fun prev => prev ++ [settled_message now o]) s)),
       t').
Proof.
  unfold handleSendMessage_settle, settled_message.
  by_outcome o; exec_step;
    try (destruct (ok status) eqn:Hok; cbn);
    eexists; reflexivity.
Qed.

Lemma submit_exact_v2 s t x :
  selectedFile s = None ->
  messages (fst (submit eng (s, t) x)) = messages s ++ added_v2 x
  /\ selectedFile (fst (submit eng (s, t) x)) = None
  /\ isLoading (fst (submit eng (s, t) x))
     = if submittable x then false else isLoading s.
Proof.
  intros Hsel. destruct (submittable x) eqn:Hsub.
  - unfold submit, handleSendMessage. cbn [fst snd].
    rewrite begin_submittable_v2.
    2: { unfold submittable in Hsub. unfold attached, pick, handleFileChange.
         destruct (picked x); cbn; [ | rewrite Hsel ]; exact Hsub. }
    match goal with
    | |- context [handleSendMessage_settle eng ?n ?o ?s0 ?t0] =>
        destruct (settle_exact_v2 n o s0 t0) as (t' & E)
    end.
    rewrite E. cbn. rewrite <- app_assoc. unfold added_v2. rewrite Hsub.
    repeat split.
    unfold userMessage, pick, handleFileChange.
    destruct (picked x); cbn; rewrite ?Hsel; reflexivity.
  - destruct (submit_skips_v2 eng s t x Hsel Hsub) as [Hm Hs].
    unfold added_v2. rewrite Hsub, app_nil_r. repeat split; try assumption.
    unfold submit, handleSendMessage. cbn [fst snd].
    unfold submittable in Hsub.
    destruct (picked x) eqn:Hp;
      [ rewrite orb_true_r in Hsub; discriminate | rewrite orb_false_r in Hsub ].
    rewrite begin_not_submittable_v2; [ reflexivity | ].
    unfold attached, pick. cbn [inputValue selectedFile setInputValue].
    rewrite Hsel, Hsub. reflexivity.
Qed.

Lemma session_exact_v2 xs : forall s t,
  selectedFile s = None ->
  messages (fst (fold_left (submit eng) xs (s, t)))
  = messages s ++ flat_map added_v2 xs
  /\ (isLoading s = false ->
      isLoading (fst (fold_left (submit eng) xs (s, t))) = false).
Proof.
  induction xs as [ | x xs IH ]; intros s t Hsel; cbn.
  - rewrite app_nil_r. split; [ reflexivity | trivial ].
  - destruct (submit_exact_v2 s t x Hsel) as (Hm & Hs & Hl).
    destruct (submit eng (s, t) x) as [s' t'] eqn:E. cbn [fst] in *.
    destruct (IH s' t' Hs) as [IHm IHl]. split.
    + rewrite IHm, Hm, <- app_assoc. reflexivity.
    + intros H0. apply IHl. rewrite Hl. destruct (submittable x); [ reflexivity | exact H0 ].
Qed.

Lemma edit_keeps_loading s e : isLoading (ChatViewV2.edit s e) = isLoading s.
Proof.
  destruct e as [ v | [ [ | f fs ] | ] | ]; reflexivity.
Qed.
End FormV2.

(** X1.  Submitting a form whose text is empty or white space only, with no
    file attached, does nothing at all: no request, no message, no effect,
    the state as it was.  Both revisions. *)
Theorem blank_submission_is_ignored :
  forall (eng : Engine) (submitted settled : Z) (o : FetchOutcome)
         (s1 : ChatInterfaceV1.State) (s2 : ChatInterfaceV2.State)
         (t : list Effect),
    blank (ChatInterfaceV1.inputValue s1) = true ->
    blank (ChatInterfaceV2.inputValue s2) = true ->
    ChatInterfaceV2.selectedFile s2 = None ->
    (ChatInterfaceV1.handleSendMessage_begin submitted s1 t = Returned s1 t
     /\ ChatInterfaceV1.handleSendMessage eng submitted settled o s1 t
        = (Normal tt, s1, t))
    /\ (ChatInterfaceV2.handleSendMessage_begin submitted s2 t = Returned s2 t
        /\ ChatInterfaceV2.handleSendMessage eng submitted settled o s2 t
           = (Normal tt, s2, t)).
Proof.
  intros eng submitted settled o s1 s2 t H1 H2 Hf.
  unfold ChatInterfaceV1.handleSendMessage, ChatInterfaceV2.handleSendMessage,
    ChatInterfaceV1.handleSendMessage_begin, ChatInterfaceV2.handleSendMessage_begin,
    ChatInterfaceV2.attached.
  rewrite !trim_truthy, H1, H2, Hf. cbn. repeat split; reflexivity.
Qed.

Lemma blank_submission_is_ignored_witness :
  let s1 := ChatInterfaceV1.setInputValue [32; 160; 9]%N ChatInterfaceV1.initial in
  let s2 := ChatInterfaceV2.setInputValue [32; 12288]%N
              (ChatInterfaceV2.initial (Some [])) in
  (ChatInterfaceV1.handleSendMessage_begin 1730000000000 s1 [] = Returned s1 []
   /\ ChatInterfaceV1.handleSendMessage v8 1730000000000 1730000000850
        q1_revenue s1 [] = (Normal tt, s1, []))
  /\ (ChatInterfaceV2.handleSendMessage_begin 1730000000000 s2 [] = Returned s2 []
      /\ ChatInterfaceV2.handleSendMessage v8 1730000000000 1730000000850
           q1_revenue s2 [] = (Normal tt, s2, [])).
Proof.
  intros s1 s2.
  exact (blank_submission_is_ignored v8 1730000000000 1730000000850 q1_revenue
           s1 s2 [] eq_refl eq_refl eq_refl).
Defined.

(** X2.  Whenever the send button is enabled, submitting issues exactly one
    request, a POST to the chat endpoint whose message is the text as typed
    (not trimmed) and, in the second revision, the attached file; the same
    text is appended to the transcript as a user message; the text and the
    attachment are cleared; and the send button and the text input are
    disabled from then on. *)
Theorem enabled_send_issues_the_request :
  forall (now : Z) (s1 : ChatInterfaceV1.State) (s2 : ChatInterfaceV2.State)
         (t : list Effect),
    ChatViewV1.send_disabled s1 = false ->
    ChatViewV2.send_disabled s2 = false ->
    let st1 := ChatInterfaceV1.handleSendMessage_begin now s1 t in
    let st2 := ChatInterfaceV2.handleSendMessage_begin now s2 t in
    (issued st1
     = Some {| url := chat_url; method := lit "POST";
               headers := [(lit "Content-Type", lit "application/json")];
               body := JsonText
                         (JObj [(lit "message",
                                 JStr (ChatInterfaceV1.inputValue s1))]) |}
     /\ ChatInterfaceV1.messages (fst (paused st1))
        = ChatInterfaceV1.messages s1
          ++ [{| id := now; type := user;
                 content := JStr (ChatInterfaceV1.inputValue s1);
                 fileName := JUndefined; image := JUndefined |}]
     /\ ChatInterfaceV1.inputValue (fst (paused st1)) = []
     /\ ChatViewV1.send_disabled (fst (paused st1)) = true
     /\ ChatViewV1.input_disabled (fst (paused st1)) = true
     /\ snd (paused st1) = t)
    /\ (issued st2
        = Some {| url := chat_url; method := lit "POST"; headers := [];
                  body := FormData (JStr (ChatInterfaceV2.inputValue s2))
                            (ChatInterfaceV2.selectedFile s2) |}
        /\ ChatInterfaceV2.messages (fst (paused st2))
           = ChatInterfaceV2.messages s2
             ++ [{| id := now; type := user;
                    content := JStr (ChatInterfaceV2.inputValue s2);
                    fileName := match ChatInterfaceV2.selectedFile s2 with
                                | Some f => JStr (file_name f)
                                | None => JNull
                                end;
                    image := JUndefined |}]
        /\ ChatInterfaceV2.inputValue (fst (paused st2)) = []
        /\ ChatInterfaceV2.selectedFile (fst (paused st2)) = None
        /\ ChatViewV2.send_disabled (fst (paused st2)) = true
        /\ ChatViewV2.input_disabled (fst (paused st2)) = true
        /\ snd (paused st2) = t).
Proof.
  intros now s1 s2 t H1 H2.
  unfold ChatViewV1.send_disabled in H1. unfold ChatViewV2.send_disabled in H2.
  apply orb_false_iff in H1. destruct H1 as [_ H1].
  apply orb_false_iff in H2. destruct H2 as [_ H2].
  unfold ChatInterfaceV1.handleSendMessage_begin,
    ChatInterfaceV2.handleSendMessage_begin.
  rewrite H1, H2. cbn. repeat split; reflexivity.
Qed.

Lemma enabled_send_issues_the_request_witness :
  let s1 := ChatInterfaceV1.setInputValue (lit " Show Q1 revenue ")
              ChatInterfaceV1.initial in
  let s2 := ChatInterfaceV2.handleFileChange (Some [sheet])
              (ChatInterfaceV2.initial (Some [])) in
  let st1 := ChatInterfaceV1.handleSendMessage_begin 1730000000000 s1 [] in
  let st2 := ChatInterfaceV2.handleSendMessage_begin 1730000000000 s2 [] in
  (issued st1
   = Some {| url := chat_url; method := lit "POST";
             headers := [(lit "Content-Type", lit "application/json")];
             body := JsonText
                       (JObj [(lit "message", JStr (lit " Show Q1 revenue "))]) |}
   /\ ChatInterfaceV1.messages (fst (paused st1))
      = [welcome;
         {| id := 1730000000000; type := user;
            content := JStr (lit " Show Q1 revenue ");
            fileName := JUndefined; image := JUndefined |}]
   /\ ChatInterfaceV1.inputValue (fst (paused st1)) = []
   /\ ChatViewV1.send_disabled (fst (paused st1)) = true
   /\ ChatViewV1.input_disabled (fst (paused st1)) = true
   /\ snd (paused st1) = [])
  /\ (issued st2
      = Some {| url := chat_url; method := lit "POST"; headers := [];
                body := FormData (JStr []) (Some sheet) |}
      /\ ChatInterfaceV2.messages (fst (paused st2))
         = [welcome;
            {| id := 1730000000000; type := user; content := JStr [];
               fileName := JStr (lit "q1.xlsx"); image := JUndefined |}]
      /\ ChatInterfaceV2.inputValue (fst (paused st2)) = []
      /\ ChatInterfaceV2.selectedFile (fst (paused st2)) = None
      /\ ChatViewV2.send_disabled (fst (paused st2)) = true
      /\ ChatViewV2.input_disabled (fst (paused st2)) = true
      /\ snd (paused st2) = []).
Proof.
  intros s1 s2.
  assert (H := enabled_send_issues_the_request 1730000000000 s1 s2 []
                 ltac:(vm_compute; reflexivity) ltac:(vm_compute; reflexivity)).
  vm_compute in H. vm_compute. exact H.
Defined.

(** X3.  While a request is pending nothing done to the form re-enables
    the send button or the text input: not typing, not picking a file, not
    removing the picked file. *)
Theorem pending_request_keeps_send_disabled :
  forall (s1 : ChatInterfaceV1.State) (s2 : ChatInterfaceV2.State)
         (typed : list JsString) (edits : list ChatViewV2.Edit),
    ChatInterfaceV1.isLoading s1 = true ->
    ChatInterfaceV2.isLoading s2 = true ->
    let s1' := fold_left (fun s v => ChatInterfaceV1.setInputValue v s) typed s1 in
    let s2' := fold_left ChatViewV2.edit edits s2 in
    (ChatViewV1.send_disabled s1' = true /\ ChatViewV1.input_disabled s1' = true)
    /\ (ChatViewV2.send_disabled s2' = true /\ ChatViewV2.input_disabled s2' = true).
Proof.
  intros s1 s2 typed edits H1 H2 s1' s2'.
  assert (L1 : ChatInterfaceV1.isLoading s1' = true).
  { subst s1'. revert s1 H1. induction typed as [ | v vs IH ]; intros s1 H1; cbn;
      [ exact H1 | apply IH; exact H1 ]. }
  assert (L2 : ChatInterfaceV2.isLoading s2' = true).
  { subst s2'. revert s2 H2. induction edits as [ | e es IH ]; intros s2 H2; cbn;
      [ exact H2 | apply IH; rewrite edit_keeps_loading; exact H2 ]. }
  unfold ChatViewV1.send_disabled, ChatViewV1.input_disabled,
    ChatViewV2.send_disabled, ChatViewV2.input_disabled.
  rewrite L1, L2. repeat split; reflexivity.
Qed.

Lemma pending_request_keeps_send_disabled_witness :
  let s1 := ChatInterfaceV1.setIsLoading true ChatInterfaceV1.initial in
  let s2 := ChatInterfaceV2.setIsLoading true (ChatInterfaceV2.initial (Some [])) in
  let s1' := fold_left (fun s v => ChatInterfaceV1.setInputValue v s)
               [lit "And"; lit "And Q2?"] s1 in
  let s2' := fold_left ChatViewV2.edit
               [ChatViewV2.Picking (Some [sheet]); ChatViewV2.Typing (lit "And Q2?");
                ChatViewV2.Removing; ChatViewV2.Picking None] s2 in
  (ChatViewV1.send_disabled s1' = true /\ ChatViewV1.input_disabled s1' = true)
  /\ (ChatViewV2.send_disabled s2' = true /\ ChatViewV2.input_disabled s2' = true).
Proof.
  intros s1 s2.
  exact (pending_request_keeps_send_disabled s1 s2 [lit "And"; lit "And Q2?"]
           [ChatViewV2.Picking (Some [sheet]); ChatViewV2.Typing (lit "And Q2?");
            ChatViewV2.Removing; ChatViewV2.Picking None] eq_refl eq_refl).
Defined.

(** X4.  However the request settles, the rest of [handleSendMessage]
    completes normally, appends exactly one message to whatever the
    transcript holds by then (the body's agent message when the request was
    answered, the fallback otherwise), sets [isLoading] to false and leaves
    the text typed meanwhile alone; the second revision also leaves the file
    picked meanwhile alone and empties the file input if it is mounted. *)
Theorem settling_appends_one_and_clears_pending :
  forall (eng : Engine) (now : Z) (o : FetchOutcome)
         (s1 : ChatInterfaceV1.State) (s2 : ChatInterfaceV2.State)
         (t : list Effect),
    let r1 := ChatInterfaceV1.handleSendMessage_settle eng now o s1 t in
    let r2 := ChatInterfaceV2.handleSendMessage_settle eng now o s2 t in
    (completion r1 = Normal tt
     /\ ChatInterfaceV1.messages (after r1)
        = ChatInterfaceV1.messages s1 ++ [settled_message now o]
     /\ ChatInterfaceV1.isLoading (after r1) = false
     /\ ChatInterfaceV1.inputValue (after r1) = ChatInterfaceV1.inputValue s1)
    /\ (completion r2 = Normal tt
        /\ ChatInterfaceV2.messages (after r2)
           = ChatInterfaceV2.messages s2 ++ [settled_message now o]
        /\ ChatInterfaceV2.isLoading (after r2) = false
        /\ ChatInterfaceV2.inputValue (after r2) = ChatInterfaceV2.inputValue s2
        /\ ChatInterfaceV2.selectedFile (after r2)
           = ChatInterfaceV2.selectedFile s2
        /\ ChatInterfaceV2.fileInputRef (after r2)
           = match ChatInterfaceV2.fileInputRef s2 with
             | Some _ => Some []
             | None => None
             end).
Proof.
  intros eng now o s1 s2 t r1 r2.
  destruct (settle_exact_v1 eng now o s1 t) as (t1 & E1).
  destruct (settle_exact_v2 eng now o s2 t) as (t2 & E2).
  subst r1 r2. rewrite E1, E2. repeat split; reflexivity.
Qed.

(** X5.  A 2xx response is not enough for a reply: when its body does not
    parse, or parses to [null], the handler appends the fallback message and
    logs the error it caught, the parser's or the [TypeError] of reading
    [response] from [null].  Both revisions. *)
Theorem unusable_body_falls_back :
  forall (eng : Engine) (now : Z) (o : FetchOutcome) (e : JsError)
         (s1 : ChatInterfaceV1.State) (s2 : ChatInterfaceV2.State)
         (t : list Effect),
    unusable eng o = Some e ->
    let r1 := ChatInterfaceV1.handleSendMessage_settle eng now o s1 t in
    let r2 := ChatInterfaceV2.handleSendMessage_settle eng now o s2 t in
    (ChatInterfaceV1.messages (after r1)
     = ChatInterfaceV1.messages s1 ++ [fallback_message now]
     /\ effects r1 = t ++ [ConsoleError [LogValue (JStr (lit "Error:")); LogError e]])
    /\ (ChatInterfaceV2.messages (after r2)
        = ChatInterfaceV2.messages s2 ++ [fallback_message now]
        /\ effects r2
           = t ++ [ConsoleError [LogValue (JStr (lit "Error:")); LogError e]]).
Proof.
  intros eng now o e s1 s2 t Hu.
  unfold ChatInterfaceV1.handleSendMessage_settle,
    ChatInterfaceV2.handleSendMessage_settle.
  by_outcome o; cbn in Hu; try discriminate Hu;
    destruct (ok status) eqn:Hok; try discriminate Hu;
    injection Hu as <-; exec_step; rewrite Hok; cbn;
    repeat split; reflexivity.
Qed.

Lemma unusable_body_falls_back_witness :
  let o := Responded 200 (Parsed JNull) in
  let e := mkError (lit "TypeError")
             (lit "Cannot read properties of null (reading 'response')") in
  let r1 := ChatInterfaceV1.handleSendMessage_settle v8 1730000000850 o
              ChatInterfaceV1.initial [] in
  let r2 := ChatInterfaceV2.handleSendMessage_settle v8 1730000000850 o
              (ChatInterfaceV2.initial None) [] in
  (ChatInterfaceV1.messages (after r1) = [welcome; fallback_message 1730000000850]
   /\ effects r1 = [ConsoleError [LogValue (JStr (lit "Error:")); LogError e]])
  /\ (ChatInterfaceV2.messages (after r2)
      = [welcome; fallback_message 1730000000850]
      /\ effects r2 = [ConsoleError [LogValue (JStr (lit "Error:")); LogError e]]).
Proof.
  intros o e.
  assert (H := unusable_body_falls_back v8 1730000000850 o e
                 ChatInterfaceV1.initial (ChatInterfaceV2.initial None) []
                 ltac:(vm_compute; reflexivity)).
  vm_compute in H. vm_compute. exact H.
Defined.

(** X6.  Whatever the texts, attachments and outcomes of a sequence of
    submissions made one after the other, the transcript starts with the
    welcome message and then holds, in order, nothing for a submission that
    is not submittable and, for any other, its user message followed by one
    agent message: the body's when the request was answered, the fallback
    otherwise.  Nothing is pending at the end.  Both revisions. *)
Theorem transcript_of_any_session :
  forall (eng : Engine) (file_input : option JsString)
         (xs1 : list ChatInterfaceV1.Submission)
         (xs2 : list ChatInterfaceV2.Submission),
    let w1 := fst (ChatInterfaceV1.session eng xs1) in
    let w2 := fst (ChatInterfaceV2.session eng file_input xs2) in
    (ChatInterfaceV1.messages w1 = welcome :: flat_map added_v1 xs1
     /\ ChatInterfaceV1.isLoading w1 = false)
    /\ (ChatInterfaceV2.messages w2 = welcome :: flat_map added_v2 xs2
        /\ ChatInterfaceV2.isLoading w2 = false).
Proof.
  intros eng file_input xs1 xs2 w1 w2.
  destruct (session_exact_v1 eng xs1 ChatInterfaceV1.initial []) as [M1 L1].
  destruct (session_exact_v2 eng xs2 (ChatInterfaceV2.initial file_input) []
              eq_refl) as [M2 L2].
  repeat split;
    [ exact M1 | exact (L1 eq_refl) | exact M2 | exact (L2 eq_refl) ].
Qed.

(** X7.  An attached file goes out with one submission only.  Picked, it is
    sent with the next submission even when the text is blank, and its name
    is recorded in the user message; once that request has settled, however
    it did, the following submission carries no file, and is not sent at all
    when its text is blank. *)
Theorem attachment_is_sent_once :
  forall (eng : Engine) (now1 now2 now3 : Z) (o : FetchOutcome)
         (text text' : JsString) (f : File) (rest : list File)
         (s : ChatInterfaceV2.State) (t : list Effect),
    let s0 := ChatInterfaceV2.handleFileChange (Some (f :: rest))
                (ChatInterfaceV2.setInputValue text s) in
    let st := ChatInterfaceV2.handleSendMessage_begin now1 s0 t in
    let r := ChatInterfaceV2.handleSendMessage_settle eng now2 o
               (fst (paused st)) (snd (paused st)) in
    let st' := ChatInterfaceV2.handleSendMessage_begin now3
                 (ChatInterfaceV2.setInputValue text' (after r)) (effects r) in
    issued st
    = Some {| url := chat_url; method := lit "POST"; headers := [];
              body := FormData (JStr text) (Some f) |}
    /\ ChatInterfaceV2.messages (fst (paused st))
       = ChatInterfaceV2.messages s
         ++ [{| id := now1; type := user; content := JStr text;
                fileName := JStr (file_name f); image := JUndefined |}]
    /\ issued st'
       = if blank text' then None
         else Some {| url := chat_url; method := lit "POST"; headers := [];
                      body := FormData (JStr text') None |}.
Proof.
  intros eng now1 now2 now3 o text text' f rest s t s0 st r st'.
  assert (Est : st = Awaiting
                  (ChatInterfaceV2.setIsLoading true
                     (ChatInterfaceV2.setSelectedFile None
                        (ChatInterfaceV2.setInputValue []
                           (ChatInterfaceV2.setMessages
                              (fun prev => prev ++ [ChatInterfaceV2.userMessage now1 s0])
                              s0))))
                  t (ChatInterfaceV2.chat_request
                       (ChatInterfaceV2.userMessage now1 s0)
                       (ChatInterfaceV2.selectedFile s0))).
  { subst st. apply begin_submittable_v2. subst s0. cbn. apply orb_true_r. }
  subst r st'. rewrite Est. cbn [paused fst snd issued].
  match goal with
  | |- context [ChatInterfaceV2.handleSendMessage_settle eng ?n ?o0 ?s1 ?t1] =>
      destruct (settle_exact_v2 eng n o0 s1 t1) as (t' & E)
  end.
  rewrite E. unfold after, effects. cbn [fst snd].
  split; [ reflexivity | ]. split; [ reflexivity | ].
  unfold ChatInterfaceV2.handleSendMessage_begin, ChatInterfaceV2.attached.
  cbn [ChatInterfaceV2.inputValue ChatInterfaceV2.selectedFile
       ChatInterfaceV2.setInputValue ChatInterfaceV2.resetFileInput
       ChatInterfaceV2.setIsLoading ChatInterfaceV2.setMessages
       ChatInterfaceV2.setSelectedFile].
  rewrite trim_truthy. destruct (blank text'); reflexivity.
Qed.

(** X8.  The transcript is rendered with [key={msg.id}].  With clock
    readings that advance (the first submission above 1, a settlement no
    earlier than its submission, the next submission above the previous
    settlement plus one) no two rendered messages share a key, whatever the
    outcomes.  Both revisions. *)
Theorem keys_are_distinct_while_clock_ticks :
  forall (eng : Engine) (file_input : option JsString)
         (xs1 : list ChatInterfaceV1.Submission)
         (xs2 : list ChatInterfaceV2.Submission),
    ticking_v1 1 xs1 = true ->
    ticking_v2 1 xs2 = true ->
    NoDup (ChatViewV1.keys (fst (ChatInterfaceV1.session eng xs1)))
    /\ NoDup (ChatViewV2.keys (fst (ChatInterfaceV2.session eng file_input xs2))).
Proof.
  intros eng file_input xs1 xs2 H1 H2.
  assert (S1 : StronglySorted Z.lt [1%Z]) by (constructor; constructor).
  assert (B1 : Forall (fun i => (i <= 1)%Z) [1%Z]) by (constructor; [ lia | constructor ]).
  split; apply sorted_no_dup.
  - exact (session_ids_v1 eng xs1 ChatInterfaceV1.initial [] 1%Z S1 B1 H1).
  - exact (session_ids_v2 eng xs2 (ChatInterfaceV2.initial file_input) [] 1%Z
             eq_refl S1 B1 H2).
Qed.

Lemma keys_are_distinct_while_clock_ticks_witness :
  let xs1 := [ChatInterfaceV1.mkSubmission (lit "Show Q1 revenue")
                1730000000000 1730000000850 q1_revenue;
              ChatInterfaceV1.mkSubmission (lit "And Q2?")
                1730000004000 1730000004000 (Rejected failed_to_fetch)] in
  let xs2 := [ChatInterfaceV2.mkSubmission (lit "Show Q1 revenue") None
                1730000000000 1730000000850 q1_revenue;
              ChatInterfaceV2.mkSubmission [] (Some sheet)
                1730000007000 1730000009000 (Responded 500 (Parsed JNull))] in
  NoDup (ChatViewV1.keys (fst (ChatInterfaceV1.session v8 xs1)))
  /\ NoDup (ChatViewV2.keys (fst (ChatInterfaceV2.session v8 (Some []) xs2))).
Proof.
  intros xs1 xs2.
  exact (keys_are_distinct_while_clock_ticks v8 (Some []) xs1 xs2 eq_refl eq_refl).
Defined.

(** ** More on the document widget *)

Section PanelRuns.
Import RequirementsPanel.
Variable eng : Engine.

Lemma generateRequirements_frame sessionId o s t :
  let r := generateRequirements eng sessionId o s t in
  completion r = Normal tt
  /\ projectName (after r) = projectName s
  /\ activeTab (after r) = activeTab s
  /\ artifacts (after r) = artifacts s
  /\ isGenerating (after r)
     = if truthy (JStr (trim (projectName s))) then false else isGenerating s.
Proof.
  unfold generateRequirements, run, generateRequirements_begin.
  destruct (truthy (JStr (trim (projectName s)))); cbn [negb].
  - unfold generateRequirements_settle.
    by_outcome o; exec_step; split_ifs; cbn; repeat split; reflexivity.
  - cbn. repeat split; reflexivity.
Qed.

Lemma generateArtifact_frame artifactType o s t :
  let r := generateArtifact eng artifactType o s t in
  completion r = Normal tt
  /\ projectName (after r) = projectName s
  /\ activeTab (after r) = activeTab s
  /\ requirements (after r) = requirements s
  /\ documentContent (after r) = documentContent s
  /\ isGenerating (after r)
     = if truthy (requirements s) then false else isGenerating s.
Proof.
  unfold generateArtifact, run, generateArtifact_begin.
  destruct (truthy (requirements s)); cbn [negb].
  - unfold generateArtifact_settle.
    by_outcome o; exec_step; split_ifs; cbn; repeat split; reflexivity.
  - cbn. repeat split; reflexivity.
Qed.

(** A successful requirements request, run from a state with a project
    name that is not blank. *)
Lemma generateRequirements_stores status fields sessionId s t :
  truthy (JStr (trim (projectName s))) = true ->
  truthy (own_property (lit "success") fields) = true ->
  generateRequirements eng sessionId (Responded status (Parsed (JObj fields))) s t
  = (Normal tt,
     setIsGenerating false
       (setDocumentContent (own_property (lit "document") fields)
          (setRequirements (own_property (lit "requirements") fields)
             (setError JNull (setIsGenerating true s)))),
     t).
Proof.
  intros Hn Hs. unfold generateRequirements, run, generateRequirements_begin.
  rewrite Hn. cbn [negb]. unfold generateRequirements_settle. exec_step.
  rewrite Hs. reflexivity.
Qed.
End PanelRuns.

(** X9.  [generateRequirements] and [generateArtifact] complete normally
    however the request settles (rejection, unparsable or [null] body
    included) and also when none is issued; a run that issued a request ends
    with [isGenerating] false.  [generateRequirements] never touches the
    project name, the active tab or the artifact slots; [generateArtifact]
    never touches the project name, the active tab, the requirements payload
    or the document text. *)
Theorem generate_handlers_always_complete :
  forall (eng : Engine) (sessionId : JsVal) (artifactType : JsString)
         (o : FetchOutcome) (s : RequirementsPanel.State) (t : list Effect),
    let r := RequirementsPanel.generateRequirements eng sessionId o s t in
    let r' := RequirementsPanel.generateArtifact eng artifactType o s t in
    (completion r = Normal tt
     /\ RequirementsPanel.projectName (after r) = RequirementsPanel.projectName s
     /\ RequirementsPanel.activeTab (after r) = RequirementsPanel.activeTab s
     /\ RequirementsPanel.artifacts (after r) = RequirementsPanel.artifacts s
     /\ RequirementsPanel.isGenerating (after r)
        = if blank (RequirementsPanel.projectName s)
          then RequirementsPanel.isGenerating s else false)
    /\ (completion r' = Normal tt
        /\ RequirementsPanel.projectName (after r') = RequirementsPanel.projectName s
        /\ RequirementsPanel.activeTab (after r') = RequirementsPanel.activeTab s
        /\ RequirementsPanel.requirements (after r')
           = RequirementsPanel.requirements s
        /\ RequirementsPanel.documentContent (after r')
           = RequirementsPanel.documentContent s
        /\ RequirementsPanel.isGenerating (after r')
           = if truthy (RequirementsPanel.requirements s)
             then false else RequirementsPanel.isGenerating s).
Proof.
  intros eng sessionId artifactType o s t r r'.
  destruct (generateRequirements_frame eng sessionId o s t) as (A & B & C & D & E).
  destruct (generateArtifact_frame eng artifactType o s t) as (A' & B' & C' & D' & E' & F').
  fold r in A, B, C, D, E. fold r' in A', B', C', D', E', F'.
  rewrite trim_truthy in E.
  repeat split; try assumption.
  rewrite E. destruct (blank (RequirementsPanel.projectName s)); reflexivity.
Qed.

(** X10.  A [generateArtifact] run whose request was issued and did not
    come back with a truthy [success] leaves all three slots as they were
    and sets [error]: the body's [error] when truthy, the generic artifact
    notice when the body has none, the connectivity notice when there is no
    usable body. *)
Theorem failing_generateArtifact_keeps_slots :
  forall (eng : Engine) (artifactType : JsString) (o : FetchOutcome)
         (s : RequirementsPanel.State) (t : list Effect),
    truthy (RequirementsPanel.requirements s) = true ->
    reports_success o = false ->
    let r := RequirementsPanel.generateArtifact eng artifactType o s t in
    RequirementsPanel.artifacts (after r) = RequirementsPanel.artifacts s
    /\ RequirementsPanel.error (after r)
       = surfaced RequirementsPanel.artifact_failed o.
Proof.
  intros eng artifactType o s t Hreq Hfail.
  unfold RequirementsPanel.generateArtifact, RequirementsPanel.run,
    RequirementsPanel.generateArtifact_begin.
  rewrite Hreq. cbn [negb].
  unfold RequirementsPanel.generateArtifact_settle.
  by_outcome o; exec_step; try (split; reflexivity).
  cbn in Hfail. rewrite Hfail. cbn. split; reflexivity.
Qed.

Lemma failing_generateArtifact_keeps_slots_witness :
  let r := RequirementsPanel.generateArtifact v8 (lit "user_stories") refused
             loan_ready [] in
  RequirementsPanel.artifacts (after r) = RequirementsPanel.artifacts loan_ready
  /\ RequirementsPanel.error (after r) = JStr (lit "No conversation found").
Proof.
  assert (H := failing_generateArtifact_keeps_slots v8 (lit "user_stories")
                 refused loan_ready []
                 ltac:(vm_compute; reflexivity) ltac:(vm_compute; reflexivity)).
  vm_compute in H. vm_compute. exact H.
Defined.

(** X11.  [generateArtifact] called with a name that is none of
    [use_cases], [user_stories], [process_diagram] still issues its request,
    and a successful answer is dropped without a trace: the three slots are
    as they were and no error is set. *)
Theorem unknown_artifact_kind_is_dropped :
  forall (eng : Engine) (artifactType : JsString) (o : FetchOutcome)
         (s : RequirementsPanel.State) (t : list Effect),
    truthy (RequirementsPanel.requirements s) = true ->
    known_kind artifactType = false ->
    reports_success o = true ->
    let r := RequirementsPanel.generateArtifact eng artifactType o s t in
    issued (RequirementsPanel.generateArtifact_begin artifactType s t)
    = Some (RequirementsPanel.artifact_request artifactType s)
    /\ RequirementsPanel.artifacts (after r) = RequirementsPanel.artifacts s
    /\ RequirementsPanel.error (after r) = JNull
    /\ effects r = t.
Proof.
  intros eng artifactType o s t Hreq Hk Hok.
  unfold known_kind in Hk.
  apply orb_false_iff in Hk. destruct Hk as [Hk H3].
  apply orb_false_iff in Hk. destruct Hk as [H1 H2].
  unfold RequirementsPanel.generateArtifact, RequirementsPanel.run,
    RequirementsPanel.generateArtifact_begin.
  rewrite Hreq. cbn [negb issued].
  unfold RequirementsPanel.generateArtifact_settle.
  by_outcome o; try discriminate Hok. cbn in Hok.
  exec_step. rewrite Hok, H1, H2, H3. cbn. repeat split; reflexivity.
Qed.

Lemma unknown_artifact_kind_is_dropped_witness :
  let r := RequirementsPanel.generateArtifact v8 (lit "usecases") two_use_cases
             loan_ready [] in
  issued (RequirementsPanel.generateArtifact_begin (lit "usecases") loan_ready [])
  = Some (RequirementsPanel.artifact_request (lit "usecases") loan_ready)
  /\ RequirementsPanel.artifacts (after r) = RequirementsPanel.artifacts loan_ready
  /\ RequirementsPanel.error (after r) = JNull
  /\ effects r = [].
Proof.
  exact (unknown_artifact_kind_is_dropped v8 (lit "usecases") two_use_cases
           loan_ready []
           ltac:(vm_compute; reflexivity) ltac:(vm_compute; reflexivity)
           ltac:(vm_compute; reflexivity)).
Defined.



(** A page URL that does not parse: the dialog is confirmed, [window.open]
    throws, and the user is left with the connectivity notice. *)
Example publish_with_unparsable_page_url :
  let r := RequirementsPanel.publishToConfluence v8 true
             (Responded 200
                (Parsed (JObj [(lit "success", JBool true);
                               (lit "page_url", JStr (lit "https://"))])))
             loan_ready [] in
  completion r = Normal tt
  /\ RequirementsPanel.error (after r)
     = JStr (lit "Ошибка подключения к серверу: Failed to execute 'open' on 'Window': Unable to open a window with invalid URL 'https://'.")
  /\ existsb (fun e => match e with WindowOpen _ _ => true | _ => false end)
       (effects r) = false.
Proof. vm_compute. repeat split; reflexivity. Qed.



(** X14.  A click on an enabled generate button never ends in a validation
    notice.  The requirements button, when enabled, issues the requirements
    request; the generate button of an artifact tab, when enabled, issues the
    artifact request for the kind of that tab.  In both cases [error] is
    cleared and, until the request settles, the requirements button, every
    artifact button and the publish button are disabled; the download button
    is not. *)
Theorem enabled_buttons_issue_requests :
  forall (sessionId : JsVal) (k : ArtifactKind)
         (s1 s2 : RequirementsPanel.State) (t : list Effect),
    PanelView.generate_enabled s1 = true ->
    PanelView.artifact_button_enabled k s2 = true ->
    let st1 := RequirementsPanel.generateRequirements_begin sessionId s1 t in
    let st2 := RequirementsPanel.generateArtifact_begin (kind_name k) s2 t in
    (issued st1 = Some (RequirementsPanel.requirements_request sessionId s1)
     /\ RequirementsPanel.error (fst (paused st1)) = JNull
     /\ PanelView.generate_enabled (fst (paused st1)) = false)
    /\ (issued st2 = Some (RequirementsPanel.artifact_request (kind_name k) s2)
        /\ RequirementsPanel.error (fst (paused st2)) = JNull
        /\ (forall k', PanelView.artifact_button_enabled k' (fst (paused st2)) = false)
        /\ PanelView.publish_enabled (fst (paused st2)) = false
        /\ PanelView.download_enabled (fst (paused st2)) = true).
Proof.
  intros sessionId k s1 s2 t H1 H2.
  unfold PanelView.generate_enabled in H1.
  apply andb_true_iff in H1. destruct H1 as [_ H1].
  apply negb_true_iff, orb_false_iff in H1. destruct H1 as [_ H1].
  apply negb_false_iff in H1.
  unfold PanelView.artifact_button_enabled, PanelView.artifact_button_shown in H2.
  apply andb_true_iff in H2. destruct H2 as [H2 _].
  apply andb_true_iff in H2. destruct H2 as [H2 _].
  apply andb_true_iff in H2. destruct H2 as [H2 _].
  unfold PanelView.results_shown in H2.
  unfold RequirementsPanel.generateRequirements_begin,
    RequirementsPanel.generateArtifact_begin.
  rewrite H1, H2. cbn [negb paused issued fst].
  unfold PanelView.generate_enabled, PanelView.artifact_button_enabled,
    PanelView.publish_enabled, PanelView.download_enabled, PanelView.results_shown.
  cbn [RequirementsPanel.isGenerating RequirementsPanel.requirements
       RequirementsPanel.error
       RequirementsPanel.setError RequirementsPanel.setIsGenerating].
  rewrite H2. cbn [orb negb]. rewrite !andb_false_r.
  repeat split; try reflexivity.
  intros k'. apply andb_false_r.
Qed.

Lemma enabled_buttons_issue_requests_witness :
  let s2 := RequirementsPanel.setActiveTab (lit "stories") loan_ready in
  let st1 := RequirementsPanel.generateRequirements_begin (JStr (lit "abc"))
               loan_idle [] in
  let st2 := RequirementsPanel.generateArtifact_begin (kind_name user_stories)
               s2 [] in
  (issued st1
   = Some (RequirementsPanel.requirements_request (JStr (lit "abc")) loan_idle)
   /\ RequirementsPanel.error (fst (paused st1)) = JNull
   /\ PanelView.generate_enabled (fst (paused st1)) = false)
  /\ (issued st2
      = Some (RequirementsPanel.artifact_request (kind_name user_stories) s2)
      /\ RequirementsPanel.error (fst (paused st2)) = JNull
      /\ (forall k', PanelView.artifact_button_enabled k' (fst (paused st2)) = false)
      /\ PanelView.publish_enabled (fst (paused st2)) = false
      /\ PanelView.download_enabled (fst (paused st2)) = true).
Proof.
  intros s2.
  exact (enabled_buttons_issue_requests (JStr (lit "abc")) user_stories
           loan_idle s2 []
           ltac:(vm_compute; reflexivity) ltac:(vm_compute; reflexivity)).
Defined.

(** X15.  The results section depends on the requirements payload alone.
    When a successful answer carries a truthy [requirements] and no usable
    [document], the results section is shown with the download and publish
    buttons enabled, yet a click on download does nothing and a click on
    publish only sets the notice asking for a document; no request goes
    out. *)
Theorem results_without_document :
  forall (eng : Engine) (sessionId : JsVal) (status : Z)
         (fields : list (JsString * JsVal))
         (s : RequirementsPanel.State) (t : list Effect),
    blank (RequirementsPanel.projectName s) = false ->
    truthy (own_property (lit "success") fields) = true ->
    truthy (own_property (lit "requirements") fields) = true ->
    truthy (own_property (lit "document") fields) = false ->
    let s' := after (RequirementsPanel.generateRequirements eng sessionId
                       (Responded status (Parsed (JObj fields))) s t) in
    PanelView.results_shown s' = true
    /\ PanelView.download_enabled s' = true
    /\ PanelView.publish_enabled s' = true
    /\ RequirementsPanel.downloadDocument s' t = Returned s' t
    /\ RequirementsPanel.publishToConfluence_begin s' t
       = Returned
           (RequirementsPanel.setError (JStr RequirementsPanel.document_first) s') t.
Proof.
  intros eng sessionId status fields s t Hb Hok Hreq Hdoc s'.
  assert (Hn : truthy (JStr (trim (RequirementsPanel.projectName s))) = true)
    by (rewrite trim_truthy, Hb; reflexivity).
  subst s'. rewrite (generateRequirements_stores eng status fields sessionId s t Hn Hok).
  unfold after. cbn [fst snd].
  unfold PanelView.results_shown, PanelView.download_enabled,
    PanelView.publish_enabled, PanelView.results_shown,
    RequirementsPanel.downloadDocument, RequirementsPanel.publishToConfluence_begin.
  cbn [RequirementsPanel.requirements RequirementsPanel.documentContent
       RequirementsPanel.isGenerating
       RequirementsPanel.setIsGenerating RequirementsPanel.setDocumentContent
       RequirementsPanel.setRequirements RequirementsPanel.setError].
  rewrite Hreq, Hdoc. cbn [negb andb]. repeat split; reflexivity.
Qed.

Lemma results_without_document_witness :
  let fields := [(lit "success", JBool true);
                 (lit "requirements", JObj [(lit "goal", JStr (lit "loans"))])] in
  let s' := after (RequirementsPanel.generateRequirements v8 (JStr (lit "abc"))
                     (Responded 200 (Parsed (JObj fields))) loan_idle []) in
  PanelView.results_shown s' = true
  /\ PanelView.download_enabled s' = true
  /\ PanelView.publish_enabled s' = true
  /\ RequirementsPanel.downloadDocument s' [] = Returned s' []
  /\ RequirementsPanel.publishToConfluence_begin s' []
     = Returned
         (RequirementsPanel.setError (JStr RequirementsPanel.document_first) s') [].
Proof.
  intros fields.
  exact (results_without_document v8 (JStr (lit "abc")) 200 fields loan_idle []
           ltac:(vm_compute; reflexivity) ltac:(vm_compute; reflexivity)
           ltac:(vm_compute; reflexivity) ltac:(vm_compute; reflexivity)).
Defined.

(** X16.  A successful answer without a usable [requirements] leaves the
    widget on the generate form with nothing to show for it: the document
    text is stored, no error is set, nothing is logged, the results section
    stays hidden and the requirements button is enabled again. *)
Theorem success_without_requirements_is_silent :
  forall (eng : Engine) (sessionId : JsVal) (status : Z)
         (fields : list (JsString * JsVal))
         (s : RequirementsPanel.State) (t : list Effect),
    blank (RequirementsPanel.projectName s) = false ->
    truthy (own_property (lit "success") fields) = true ->
    truthy (own_property (lit "requirements") fields) = false ->
    let r := RequirementsPanel.generateRequirements eng sessionId
               (Responded status (Parsed (JObj fields))) s t in
    PanelView.results_shown (after r) = false
    /\ PanelView.generate_enabled (after r) = true
    /\ RequirementsPanel.error (after r) = JNull
    /\ RequirementsPanel.documentContent (after r)
       = own_property (lit "document") fields
    /\ effects r = t.
Proof.
  intros eng sessionId status fields s t Hb Hok Hreq r.
  assert (Hn : truthy (JStr (trim (RequirementsPanel.projectName s))) = true)
    by (rewrite trim_truthy, Hb; reflexivity).
  subst r. rewrite (generateRequirements_stores eng status fields sessionId s t Hn Hok).
  unfold after, effects. cbn [fst snd].
  unfold PanelView.generate_enabled, PanelView.results_shown.
  cbn [RequirementsPanel.requirements RequirementsPanel.documentContent
       RequirementsPanel.isGenerating RequirementsPanel.projectName
       RequirementsPanel.error
       RequirementsPanel.setIsGenerating RequirementsPanel.setDocumentContent
       RequirementsPanel.setRequirements RequirementsPanel.setError].
  rewrite Hreq, Hn. repeat split; reflexivity.
Qed.

Lemma success_without_requirements_is_silent_witness :
  let fields := [(lit "success", JBool true);
                 (lit "requirements", JNull);
                 (lit "document", JStr (lit "# Req"))] in
  let r := RequirementsPanel.generateRequirements v8 (JStr (lit "abc"))
             (Responded 200 (Parsed (JObj fields))) loan_idle [] in
  PanelView.results_shown (after r) = false
  /\ PanelView.generate_enabled (after r) = true
  /\ RequirementsPanel.error (after r) = JNull
  /\ RequirementsPanel.documentContent (after r) = JStr (lit "# Req")
  /\ effects r = [].
Proof.
  intros fields.
  assert (H := success_without_requirements_is_silent v8 (JStr (lit "abc")) 200
                 fields loan_idle []
                 ltac:(vm_compute; reflexivity) ltac:(vm_compute; reflexivity)
                 ltac:(vm_compute; reflexivity)).
  vm_compute in H. vm_compute. exact H.
Defined.



(** The same tab after an answer without [artifacts]: the button is back. *)
Example artifact_button_returns_without_payload :
  PanelView.artifact_button_enabled use_cases
    (after (RequirementsPanel.generateArtifact v8 (kind_name use_cases)
              (Responded 200 (Parsed (JObj [(lit "success", JBool true)])))
              (RequirementsPanel.setActiveTab (lit "usecases") loan_ready) []))
  = true.
Proof. vm_compute. reflexivity. Qed.
